(** * Norko GraphQL API: the catalog loader, the product normalizer and the
    query resolvers of [src/server.js], with the loader and normalizer of
    the enhanced server beside them, embedded over untyped JSON values.

    The data file is scraped JSON, so a raw product is an arbitrary JSON
    value and every property read can raise a [TypeError].  The embedding
    keeps that: raw records are [JS.value]s, and every function of the
    source that can throw returns a [JS.result]. *)

From Stdlib Require Import List String Ascii Bool Arith ZArith QArith Qcanon Lia.
From Stdlib Require Import Sorted Permutation DecimalString DecimalNat DecimalFacts.
From Stdlib Require Import FinFun.
Import ListNotations.
Open Scope string_scope.

(* ================================================================== *)
(** * The JavaScript fragment the server uses *)
(* ================================================================== *)

Module JS.

(** A JavaScript number.  The server never does arithmetic: numbers are
    only tested for truthiness and compared, so a finite double is
    represented by the rational it denotes, in lowest terms. *)
Inductive number : Type :=
| Fin (q : Qc)
| PosInf
| NegInf
| NaN.

(** Values as [JSON.parse] builds them, plus [undefined] for what a
    property read yields when the property is missing. *)
#[local] Unset Elimination Schemes.
Inductive value : Type :=
| VUndefined
| VNull
| VBool (b : bool)
| VNum (n : number)
| VStr (s : string)
| VArr (elems : list value)
| VObj (props : list (string * value)).
#[local] Set Elimination Schemes.

(** The exceptions the modelled code can meet: [TypeError] from a
    property read on [null]/[undefined] or a call of a missing method,
    [SystemError] from [fs.readFileSync], [SyntaxError] from
    [JSON.parse]. *)
Inductive exn : Type := TypeError | SystemError | SyntaxError.

Inductive result (A : Type) : Type :=
| Ok (a : A)
| Throw (e : exn).
Arguments Ok {A} a.
Arguments Throw {A} e.

Definition bind {A B} (r : result A) (k : A -> result B) : result B :=
  match r with
  | Ok a => k a
  | Throw e => Throw e
  end.

(** [try { body } catch { handler }] *)
Definition try_catch {A} (body : result A) (handler : exn -> A) : A :=
  match body with
  | Ok a => a
  | Throw e => handler e
  end.

(** The built-in operations whose definition lies in the language
    standard rather than in this repository. *)
Class Builtins : Type := {
  toLowerCase : string -> string;      (* String.prototype.toLowerCase *)
  StringToNumber : string -> number;   (* ToNumber applied to a string *)
  NumberToString : number -> string    (* ToString applied to a number *)
}.

(** An argument as a resolver receives it: left out, [null], or given. *)
Inductive arg (A : Type) : Type :=
| Omitted
| Null
| Given (a : A).
Arguments Omitted {A}.
Arguments Null {A}.
Arguments Given {A} a.

End JS.

Import JS.

Declare Scope js_scope.
Delimit Scope js_scope with js.
Notation "x <- c ;; k" := (bind c (fun x => k))
  (at level 61, c at next level, right associativity) : js_scope.
Open Scope js_scope.

Module JSOps.

Definition number_truthy (n : number) : bool :=
  match n with
  | Fin q => negb (Qeq_bool q 0)
  | PosInf | NegInf => true
  | NaN => false
  end.

(** ToBoolean *)
Definition truthy (v : value) : bool :=
  match v with
  | VUndefined | VNull => false
  | VBool b => b
  | VNum n => number_truthy n
  | VStr s => negb (String.eqb s "")
  | VArr _ | VObj _ => true
  end.

Definition nullish (v : value) : bool :=
  match v with
  | VUndefined | VNull => true
  | _ => false
  end.

(** [a || b] *)
Definition or_else (a b : value) : value :=
  if truthy a then a else b.

(** [a || b] where evaluating [b] can throw: [b] is evaluated only
    when [a] is falsy. *)
Definition or_else_r (a : value) (b : result value) : result value :=
  if truthy a then Ok a else b.

(** The own properties of an object as a list of bindings; a parsed
    object has one binding per key. *)
Fixpoint lookup (k : string) (props : list (string * value)) : value :=
  match props with
  | [] => VUndefined
  | (k', v) :: rest => if String.eqb k k' then v else lookup k rest
  end.

Definition num (q : Q) : value := VNum (Fin (Q2Qc q)).

Definition of_nat (n : nat) : value := num (inject_Z (Z.of_nat n)).

(** [o.k] for the property names the server reads; none of them is
    inherited from a prototype, so a read on a primitive or an array
    yields [undefined] unless it is [length]. *)
Definition get (k : string) (o : value) : result value :=
  match o with
  | VUndefined | VNull => Throw TypeError
  | VObj props => Ok (lookup k props)
  | VArr elems =>
      Ok (if String.eqb k "length" then of_nat (List.length elems) else VUndefined)
  | VStr s =>
      Ok (if String.eqb k "length" then of_nat (String.length s) else VUndefined)
  | VBool _ | VNum _ => Ok VUndefined
  end.

(** [o.k1.k2...] *)
Fixpoint get_path (ks : list string) (o : value) : result value :=
  match ks with
  | [] => Ok o
  | k :: rest => v <- get k o ;; get_path rest v
  end.

(** [o[0]] *)
Definition first_elem (o : value) : result value :=
  match o with
  | VUndefined | VNull => Throw TypeError
  | VArr elems => Ok (nth 0 elems VUndefined)
  | VStr s =>
      Ok (match s with
          | EmptyString => VUndefined
          | String c _ => VStr (String c EmptyString)
          end)
  | VObj props => Ok (lookup "0" props)
  | VBool _ | VNum _ => Ok VUndefined
  end.

(** [o?.rest]: the rest of the chain is skipped on [null]/[undefined]. *)
Definition opt_chain (o : value) (rest : value -> result value) : result value :=
  if nullish o then Ok VUndefined else rest o.

(** [o.map(...)], [o.filter(...)], [o.find(...)]: only arrays have them. *)
Definition as_array (o : value) : result (list value) :=
  match o with
  | VArr elems => Ok elems
  | _ => Throw TypeError
  end.

Fixpoint chars (s : string) : list value :=
  match s with
  | EmptyString => []
  | String c rest => VStr (String c EmptyString) :: chars rest
  end.

(** [[...o]] *)
Definition spread (o : value) : result (list value) :=
  match o with
  | VArr elems => Ok elems
  | VStr s => Ok (chars s)
  | _ => Throw TypeError
  end.

(** [xs.map((x, index) => f(x, index))] with a callback that can throw. *)
Fixpoint mapi_from {A B} (i : nat) (f : A -> nat -> result B) (xs : list A)
  : result (list B) :=
  match xs with
  | [] => Ok []
  | x :: rest =>
      y <- f x i ;;
      ys <- mapi_from (S i) f rest ;;
      Ok (y :: ys)
  end.

Definition map_r {A B} (f : A -> result B) (xs : list A) : result (list B) :=
  mapi_from 0 (fun x _ => f x) xs.

(** [xs.filter(x => f(x))] with a callback that can throw. *)
Fixpoint filter_r {A} (f : A -> result bool) (xs : list A) : result (list A) :=
  match xs with
  | [] => Ok []
  | x :: rest =>
      keep <- f x ;;
      ys <- filter_r f rest ;;
      Ok (if keep then x :: ys else ys)
  end.

(** [xs.slice(0, end)] for an integer [end]: a negative end counts from
    the back of the array. *)
Definition slice0 {A} (xs : list A) (e : Z) : list A :=
  let len := Z.of_nat (List.length xs) in
  let final := if (e <? 0)%Z then Z.max (len + e) 0 else Z.min e len in
  firstn (Z.to_nat final) xs.

(** [s.includes(search)] on strings. *)
Fixpoint includes (s search : string) : bool :=
  if String.prefix search s then true
  else match s with
       | EmptyString => false
       | String _ rest => includes rest search
       end.

Fixpoint has_gt (s : string) : bool :=
  match s with
  | EmptyString => false
  | String c rest => if Ascii.eqb c ">" then true else has_gt rest
  end.

(** [s.replace(/<[^>]*>/g, '')]: a match starts at a [<] that has a [>]
    somewhere after it and runs to the first such [>]. *)
Fixpoint strip_from (inside : bool) (s : string) : string :=
  match s with
  | EmptyString => EmptyString
  | String c rest =>
      if inside then
        if Ascii.eqb c ">" then strip_from false rest else strip_from true rest
      else if Ascii.eqb c "<" then
        if has_gt rest then strip_from true rest else s
      else String c (strip_from false rest)
  end.

Definition strip_tags (s : string) : string := strip_from false s.

(** [v.replace(/<[^>]*>/g, '')]: a method of strings only. *)
Definition replace_tags (v : value) : result value :=
  match v with
  | VStr s => Ok (VStr (strip_tags s))
  | _ => Throw TypeError
  end.

(** [v === 0] *)
Definition is_zero (v : value) : bool :=
  match v with
  | VNum (Fin q) => Qeq_bool q 0
  | _ => false
  end.

Fixpoint join_with (sep : string) (parts : list string) : string :=
  match parts with
  | [] => ""
  | [p] => p
  | p :: rest => p ++ sep ++ join_with sep rest
  end.

Definition nat_to_string (n : nat) : string :=
  NilZero.string_of_uint (Nat.to_uint n).

(** Order on numbers: every comparison with [NaN] is false. *)
Definition number_le (a b : number) : bool :=
  match a, b with
  | NaN, _ | _, NaN => false
  | NegInf, _ => true
  | _, PosInf => true
  | Fin p, Fin q => Qle_bool p q
  | _, _ => false
  end.


Section WithBuiltins.
Context {B : Builtins}.

(** ToString.  Inside [Array.prototype.join], [null] and [undefined]
    elements print as the empty string.  An object prints through the
    inherited [Object.prototype.toString]: the records of the data file
    and of [generateSampleProducts] have no key named [toString] of
    their own; with such a key the conversion raises a TypeError in
    JavaScript, which this function does not show. *)
Fixpoint ToString (v : value) : string :=
  match v with
  | VUndefined => "undefined"
  | VNull => "null"
  | VBool true => "true"
  | VBool false => "false"
  | VNum n => NumberToString n
  | VStr s => s
  | VArr elems =>
      join_with ","
        (map (fun e => if nullish e then "" else ToString e) elems)
  | VObj _ => "[object Object]"
  end.

(** ToNumber; arrays and objects go through their string form. *)
Definition ToNumber (v : value) : number :=
  match v with
  | VUndefined => NaN
  | VNull => Fin (Q2Qc 0)
  | VBool true => Fin (Q2Qc 1)
  | VBool false => Fin (Q2Qc 0)
  | VNum n => n
  | VStr s => StringToNumber s
  | VArr _ | VObj _ => StringToNumber (ToString v)
  end.

(** [v >= bound] and [v <= bound] against a number. *)
Definition js_ge (v : value) (bound : Qc) : bool :=
  number_le (Fin bound) (ToNumber v).

Definition js_le (v : value) (bound : Qc) : bool :=
  number_le (ToNumber v) (Fin bound).

(** [v.toLowerCase()]: a method of strings only. *)
Definition lower (v : value) : result string :=
  match v with
  | VStr s => Ok (toLowerCase s)
  | _ => Throw TypeError
  end.







End WithBuiltins.

(** Truthiness of resolver arguments. *)
Definition given_number (a : arg Qc) : option Qc :=
  match a with
  | Given q => if Qeq_bool q 0 then None else Some q
  | _ => None
  end.

Definition given_int (a : arg Z) : option Z :=
  match a with
  | Given z => if (z =? 0)%Z then None else Some z
  | _ => None
  end.

Definition given_string (a : arg string) : option string :=
  match a with
  | Given s => if String.eqb s "" then None else Some s
  | _ => None
  end.

(** [v === s] against a string. *)
Definition strict_eq_string (v : value) (s : string) : bool :=
  match v with
  | VStr t => String.eqb t s
  | _ => false
  end.

(** [xs.find(x => f(x))] with a callback that can throw: the callback
    runs on the elements in order, up to the first one it accepts. *)
Fixpoint find_r {A} (f : A -> result bool) (xs : list A) : result (option A) :=
  match xs with
  | [] => Ok None
  | x :: rest =>
      hit <- f x ;;
      if hit then Ok (Some x) else find_r f rest
  end.

(** What is left of [s] behind the prefix [pat], if it starts with it. *)
Fixpoint strip_prefix (pat s : string) : option string :=
  match pat, s with
  | EmptyString, _ => Some s
  | String a pat', String b s' =>
      if Ascii.eqb a b then strip_prefix pat' s' else None
  | String _ _, EmptyString => None
  end.

(** [s.replace(pat, '')] for a string pattern: the first occurrence of
    [pat] is taken out. *)
Fixpoint replace_first (pat s : string) : string :=
  match strip_prefix pat s with
  | Some rest => rest
  | None =>
      match s with
      | EmptyString => EmptyString
      | String c rest => String c (replace_first pat rest)
      end
  end.

(** An [Int] argument as the number it is compared as. *)
Definition of_int (z : Z) : Qc := Q2Qc (inject_Z z).

Definition is_given {A} (o : option A) : bool :=
  match o with Some _ => true | None => false end.

End JSOps.

Import JSOps.

(* ================================================================== *)
(** * src/server.js *)
(* ================================================================== *)

Module Server.

(** The objects [transformProduct] builds.  Their leaves are whatever
    the raw record held, so they stay [value]s. *)
Record Description : Type := {
  html : value;
  plainText : value
}.

Record Specifications : Type := {
  wattage : value;
  dimensions : value;
  weight : value
}.

Record Features : Type := {
  features_html : value;
  features_plainText : value
}.

Record ProductVariant : Type := {
  variant_id : string;
  variant_name : value;
  variant_sku : value;
  variant_price : value;
  variant_currency : value;
  variant_stock : value;
  variant_isDefault : value
}.

Record Product : Type := {
  id : value;
  name : value;
  path : value;
  category : value;
  description : Description;
  specifications : Specifications;
  features : Features;
  images : value;
  variants : list ProductVariant;
  price : value;
  currency : value
}.

(** [input ProductFilter] of the schema. *)
Record ProductFilter : Type := {
  filter_category : arg string;
  minPrice : arg Qc;
  maxPrice : arg Qc;
  minWattage : arg Z;
  maxWattage : arg Z
}.

(** What the [try] block of the loader finds on disk: no file, or a
    file whose text [JSON.parse] rejects ([None]) or accepts. *)
Inductive data_file : Type :=
| FileMissing
| FileText (parsed : option value).

Definition readFileSync (f : data_file) : result (option value) :=
  match f with
  | FileMissing => Throw SystemError
  | FileText text => Ok text
  end.

Definition JSON_parse (text : option value) : result value :=
  match text with
  | None => Throw SyntaxError
  | Some v => Ok v
  end.

(** [generateSampleProducts()] *)
Definition generateSampleProducts : list value :=
  [ VObj
      [ ("id", VStr "sample-panel-heater");
        ("name", VStr "Sample Infrared Panel Heater");
        ("path", VStr "/infrared-heaters/panel-heaters/sample-panel-heater");
        ("category", VStr "Panel Heaters");
        ("components", VObj
          [ ("description", VObj
              [ ("content", VObj
                  [ ("html", VStr "<p>High-quality infrared panel heater for efficient heating.</p>");
                    ("plainText", VStr "High-quality infrared panel heater for efficient heating.") ]) ]);
            ("specifications", VObj
              [ ("chunks", VArr
                  [ VObj [ ("wattage", num 900);
                           ("dimensions", VStr "1000mm x 800mm");
                           ("weight", num (85 # 10)) ] ]) ]);
            ("features", VObj
              [ ("content", VObj
                  [ ("html", VStr "<ul><li>Energy efficient</li><li>Easy installation</li></ul>");
                    ("plainText", VStr "Energy efficient, Easy installation") ]) ]);
            ("productImages", VObj [ ("images", VArr []) ]) ]);
        ("variants", VArr
          [ VObj [ ("name", VStr "900W");
                   ("sku", VStr "SAM-900W");
                   ("price", num (29999 # 100));
                   ("priceVariants", VArr [ VObj [ ("currency", VStr "GBP") ] ]);
                   ("stock", num 10);
                   ("isDefault", VBool true) ] ]) ] ].

(** The module-level [productsData]: the [try]/[catch] at start-up. *)
Definition productsData (f : data_file) : value :=
  try_catch
    (rawData <- readFileSync f ;;
     parsedData <- JSON_parse rawData ;;
     products <- get "products" parsedData ;;
     Ok (or_else products (VArr [])))
    (fun _ => VArr generateSampleProducts).

(** [p.variants[0]?.price || 0] *)
Definition first_variant_price (p : value) : result value :=
  vs <- get "variants" p ;;
  v0 <- first_elem vs ;;
  pr <- opt_chain v0 (get "price") ;;
  Ok (or_else pr (num 0)).

(** [p.variants[0]?.priceVariants[0]?.currency || 'GBP'] *)
Definition first_variant_currency (p : value) : result value :=
  vs <- get "variants" p ;;
  v0 <- first_elem vs ;;
  cur <- opt_chain v0 (fun v =>
           pvs <- get "priceVariants" v ;;
           pv0 <- first_elem pvs ;;
           opt_chain pv0 (get "currency")) ;;
  Ok (or_else cur (VStr "GBP")).

(** [p.components.specifications.chunks[0]?.wattage || 0] *)
Definition first_chunk_wattage (p : value) : result value :=
  chunks <- get_path ["components"; "specifications"; "chunks"] p ;;
  chunk0 <- first_elem chunks ;;
  w <- opt_chain chunk0 (get "wattage") ;;
  Ok (or_else w (num 0)).

Section Resolvers.
Context {B : Builtins}.

(** The callback of [product.variants.map] in [transformProduct]. *)
Definition transformVariant (product : value) (variant : value) (index : nat)
  : result ProductVariant :=
  pid <- get "id" product ;;
  v_name <- get "name" variant ;;
  v_sku <- get "sku" variant ;;
  v_price <- get "price" variant ;;
  pvs <- get "priceVariants" variant ;;
  pv0 <- first_elem pvs ;;
  cur <- opt_chain pv0 (get "currency") ;;
  v_stock <- get "stock" variant ;;
  v_isDefault <- get "isDefault" variant ;;
  Ok {| variant_id := ToString pid ++ "-variant-" ++ nat_to_string index;
        variant_name := v_name;
        variant_sku := v_sku;
        variant_price := v_price;
        variant_currency := or_else cur (VStr "GBP");
        variant_stock := v_stock;
        variant_isDefault := or_else v_isDefault (VBool false) |}.

(** [transformProduct(product)] *)
Definition transformProduct (product : value) : result Product :=
  chunks <- get_path ["components"; "specifications"; "chunks"] product ;;
  chunk0 <- first_elem chunks ;;
  let specs := or_else chunk0 (VObj []) in
  p_id <- get "id" product ;;
  p_name <- get "name" product ;;
  p_path <- get "path" product ;;
  p_category <- get "category" product ;;
  d_html <- get_path ["components"; "description"; "content"; "html"] product ;;
  d_plain <- get_path ["components"; "description"; "content"; "plainText"] product ;;
  s_wattage <- get "wattage" specs ;;
  s_dimensions <- get "dimensions" specs ;;
  s_weight <- get "weight" specs ;;
  f_html <- get_path ["components"; "features"; "content"; "html"] product ;;
  f_plain <- get_path ["components"; "features"; "content"; "plainText"] product ;;
  imgs <- get_path ["components"; "productImages"; "images"] product ;;
  raw_variants <- get "variants" product ;;
  variant_list <- as_array raw_variants ;;
  vs <- mapi_from 0 (transformVariant product) variant_list ;;
  p_price <- first_variant_price product ;;
  p_currency <- first_variant_currency product ;;
  Ok {| id := p_id;
        name := p_name;
        path := p_path;
        category := p_category;
        description := {| html := d_html; plainText := d_plain |};
        specifications :=
          {| wattage := or_else s_wattage (num 0);
             dimensions := or_else s_dimensions (VStr "Unknown");
             weight := or_else s_weight (num 0) |};
        features := {| features_html := f_html; features_plainText := f_plain |};
        images := or_else imgs (VArr []);
        variants := vs;
        price := p_price;
        currency := p_currency |}.

(** [{ first = 20, filter }]: the end index handed to [slice]; a [null]
    end converts to 0. *)
Definition slice_end (first : arg Z) : Z :=
  match first with
  | Omitted => 20
  | Null => 0
  | Given n => n
  end.

(** [p.category.toLowerCase().includes(filter.category.toLowerCase())] *)
Definition category_includes (c : string) (p : value) : result bool :=
  pc <- get "category" p ;;
  lc <- lower pc ;;
  Ok (includes lc (toLowerCase c)).

(** [(!min || x >= min) && (!max || x <= max)] *)
Definition within (lo hi : option Qc) (x : value) : bool :=
  match lo with None => true | Some m => js_ge x m end
  && match hi with None => true | Some m => js_le x m end.

Definition price_within (lo hi : option Qc) (p : value) : result bool :=
  pr <- first_variant_price p ;;
  Ok (within lo hi pr).

Definition wattage_within (lo hi : option Qc) (p : value) : result bool :=
  w <- first_chunk_wattage p ;;
  Ok (within lo hi w).

(** The three [if] blocks of [Query.products] under [if (filter)]. *)
Definition apply_filter (f : ProductFilter) (all : list value)
  : result (list value) :=
  byCategory <-
    match given_string (filter_category f) with
    | Some c => filter_r (category_includes c) all
    | None => Ok all
    end ;;
  let lo := given_number (minPrice f) in
  let hi := given_number (maxPrice f) in
  byPrice <-
    (if is_given lo || is_given hi
     then filter_r (price_within lo hi) byCategory
     else Ok byCategory) ;;
  let lo := option_map of_int (given_int (minWattage f)) in
  let hi := option_map of_int (given_int (maxWattage f)) in
  if is_given lo || is_given hi
  then filter_r (wattage_within lo hi) byPrice
  else Ok byPrice.

(** [Query.products] *)
Definition products (productsData : value) (first : arg Z)
  (filter : arg ProductFilter) : result (list Product) :=
  all <- spread productsData ;;
  filteredProducts <-
    match filter with
    | Given f => apply_filter f all
    | Omitted | Null => Ok all
    end ;;
  map_r transformProduct (slice0 filteredProducts (slice_end first)).




(** [Query.productsByPriceRange] *)
Definition productsByPriceRange (productsData : value) (minPrice maxPrice : Qc)
  : result (list Product) :=
  all <- as_array productsData ;;
  filteredProducts <-
    filter_r (fun p => pr <- first_variant_price p ;;
                       Ok (js_ge pr minPrice && js_le pr maxPrice)) all ;;
  map_r transformProduct filteredProducts.

(** [Query.productsByWattage] *)
Definition productsByWattage (productsData : value) (minWattage maxWattage : Z)
  : result (list Product) :=
  all <- as_array productsData ;;
  filteredProducts <-
    filter_r (fun p => w <- first_chunk_wattage p ;;
                       Ok (js_ge w (of_int minWattage)
                           && js_le w (of_int maxWattage))) all ;;
  map_r transformProduct filteredProducts.

(** [Query.product] *)
Definition product (productsData : value) (id : string)
  : result (option Product) :=
  all <- as_array productsData ;;
  found <- find_r (fun p => pid <- get "id" p ;;
                            Ok (strict_eq_string pid id)) all ;;
  match found with
  | Some p =>
      if truthy p then P <- transformProduct p ;; Ok (Some P) else Ok None
  | None => Ok None
  end.


End Resolvers.

End Server.

(* ================================================================== *)
(** * src/server.js: authentication and error formatting *)
(* ================================================================== *)

Module Auth.

(** The environment variables the server reads; [None] is an unset
    variable. *)
Record environment : Type := {
  NODE_ENV : option string;
  AUTH_REQUIRED_var : option string;
  API_KEY : option string;
  JWT_SECRET : option string
}.

(** [process.env.AUTH_REQUIRED === 'true'] *)
Definition AUTH_REQUIRED (env : environment) : bool :=
  match AUTH_REQUIRED_var env with
  | Some v => String.eqb v "true"
  | None => false
  end.

(** A string variable or header that is set and not empty. *)
Definition non_empty (o : option string) : option string :=
  match o with
  | Some s => if String.eqb s "" then None else Some s
  | None => None
  end.

(** The object a successful check returns. *)
Record AuthContext : Type := {
  authenticated : bool;
  user : value
}.

(** A call that returns or throws [new Error(message)]. *)
Inductive outcome (A : Type) : Type :=
| Returns (a : A)
| Throws (message : string).
Arguments Returns {A} a.
Arguments Throws {A} message.

(** [jwt.verify(token, secret)] of the jsonwebtoken library: the decoded
    payload, or [None] where it throws. *)
Class JwtLibrary : Type := {
  jwt_verify : string -> string -> option value
}.

Section Checks.
Context {J : JwtLibrary}.

(** [createAuthContext({ req })]; [header] is
    [req.headers.authorization]. *)
Definition createAuthContext (env : environment) (header : option string)
  : outcome AuthContext :=
  if match NODE_ENV env with
     | Some e => String.eqb e "development"
     | None => false
     end && negb (AUTH_REQUIRED env)
  then Returns {| authenticated := true;
                  user := VObj [ ("role", VStr "development") ] |}
  else
    match non_empty header with
    | None => Throws "Authorization header required for secure access"
    | Some authHeader =>
        let token := replace_first "Bearer " authHeader in
        if String.eqb token "" then
          Throws "Bearer token required for authentication"
        else if match non_empty (API_KEY env) with
                | Some key => String.eqb token key
                | None => false
                end
        then Returns {| authenticated := true;
                        user := VObj [ ("role", VStr "frontend_client");
                                       ("apiKey", VStr token) ] |}
        else
          match non_empty (JWT_SECRET env) with
          | Some secret =>
              match jwt_verify token secret with
              | Some decoded =>
                  Returns {| authenticated := true; user := decoded |}
              | None => Throws "Invalid authentication token"
              end
          | None => Throws "Invalid authentication token"
          end
    end.

End Checks.

(** [formatError(error)], an error being represented by its message. *)
Definition formatError (env : environment) (message : string) : string :=
  if match NODE_ENV env with
     | Some e => String.eqb e "production"
     | None => false
     end
  then
    if includes message "Authorization" || includes message "authentication"
    then "Authentication required"
    else if includes message "Invalid" then "Authentication failed"
    else "Internal server error"
  else message.

End Auth.

(* ================================================================== *)
(** * src/corrected-auth-test.js, from line 436: the enhanced server
      (version 2.0.0), a later revision of the same loader and
      normalizer *)
(* ================================================================== *)

Module Enhanced.

Record Description : Type := {
  html : value;
  plainText : value
}.

Record Specifications : Type := {
  wattage : value;
  dimensions : value;
  weight : value;
  coverage : value;
  mounting : value;
  efficiency : value
}.

Record ProductImage : Type := {
  url : value;
  altText : value
}.

Record ProductVariant : Type := {
  variant_id : string;
  variant_name : value;
  variant_sku : value;
  variant_price : value;
  variant_currency : value;
  variant_stock : value;
  variant_isDefault : value
}.

Record Product : Type := {
  id : value;
  name : value;
  path : value;
  category : value;
  description : Description;
  specifications : Specifications;
  features : Description;
  images : list ProductImage;
  variants : list ProductVariant;
  price : value;
  currency : value;
  sourceUrl : value;
  extractedAt : value;
  warranty : value
}.

(** [generateSampleProducts()]; [now] is [new Date().toISOString()]. *)
Definition sample (pid pname ppath src desc_html desc_plain : string)
  (chunk : list (string * value)) (feat_html feat_plain img alt warr : string)
  (now : string) (vs : list value) : value :=
  VObj
    [ ("id", VStr pid); ("name", VStr pname); ("path", VStr ppath);
      ("category", VStr "Panel Heaters");
      ("sourceUrl", VStr src);
      ("extractedAt", VStr now);
      ("components", VObj
        [ ("description", VObj
            [ ("content", VObj [ ("html", VStr desc_html);
                                 ("plainText", VStr desc_plain) ]) ]);
          ("specifications", VObj [ ("chunks", VArr [ VObj chunk ]) ]);
          ("features", VObj
            [ ("content", VObj [ ("html", VStr feat_html);
                                 ("plainText", VStr feat_plain) ]) ]);
          ("productImages", VObj
            [ ("images", VArr [ VObj [ ("url", VStr img);
                                       ("altText", VStr alt) ] ]) ]);
          ("warranty", VObj [ ("text", VStr warr) ]) ]);
      ("variants", VArr vs) ].

Definition sample_variant (vname vsku : string) (vprice : Q) (vstock : Z)
  (dflt : bool) : value :=
  VObj [ ("name", VStr vname); ("sku", VStr vsku); ("price", num vprice);
         ("priceVariants", VArr [ VObj [ ("currency", VStr "GBP") ] ]);
         ("stock", num (inject_Z vstock)); ("isDefault", VBool dflt) ].

Definition generateSampleProducts (now : string) : list value :=
  [ sample "sample-panel-heater-600w" "Sample 600W Infrared Panel Heater"
      "/infrared-heaters/panel-heaters/sample-panel-heater-600w"
      "https://example.com/sample-heater"
      "<p>High-quality 600W infrared panel heater for efficient and comfortable heating. Perfect for small to medium rooms.</p>"
      "High-quality 600W infrared panel heater for efficient and comfortable heating. Perfect for small to medium rooms."
      [ ("wattage", num 600); ("dimensions", VStr "800mm x 600mm x 20mm");
        ("weight", num (65 # 10)); ("coverage", VStr "12-15m²");
        ("mounting", VStr "Wall mounted");
        ("efficiency", VStr "A+ Energy Rating") ]
      "<ul><li>Energy efficient infrared heating</li><li>Easy wall installation</li><li>Silent operation</li><li>Thermostat compatible</li></ul>"
      "Energy efficient infrared heating, Easy wall installation, Silent operation, Thermostat compatible"
      "https://example.com/sample-heater-1.jpg"
      "Sample 600W Panel Heater - Front View"
      "5 year manufacturer warranty" now
      [ sample_variant "600W White" "SAM-600W-WHT" (29999 # 100) 15 true;
        sample_variant "600W Black" "SAM-600W-BLK" (29999 # 100) 8 false ];
    sample "sample-panel-heater-900w" "Sample 900W Infrared Panel Heater"
      "/infrared-heaters/panel-heaters/sample-panel-heater-900w"
      "https://example.com/sample-heater-900w"
      "<p>Powerful 900W infrared panel heater ideal for larger rooms and commercial spaces. Advanced heating technology.</p>"
      "Powerful 900W infrared panel heater ideal for larger rooms and commercial spaces. Advanced heating technology."
      [ ("wattage", num 900); ("dimensions", VStr "1200mm x 600mm x 20mm");
        ("weight", num (85 # 10)); ("coverage", VStr "18-22m²");
        ("mounting", VStr "Wall mounted");
        ("efficiency", VStr "A++ Energy Rating") ]
      "<ul><li>High efficiency infrared heating</li><li>Commercial grade construction</li><li>Low maintenance</li><li>Smart controls ready</li></ul>"
      "High efficiency infrared heating, Commercial grade construction, Low maintenance, Smart controls ready"
      "https://example.com/sample-heater-900w-1.jpg"
      "Sample 900W Panel Heater - Front View"
      "7 year manufacturer warranty" now
      [ sample_variant "900W White" "SAM-900W-WHT" (44999 # 100) 12 true ] ].

(** The module-level state [loadProductData] assigns. *)
Record catalog_state : Type := {
  productsData : value;
  productsMetadata : value
}.

(** The metadata written beside the sample catalog; [error.message] is
    abbreviated to the kind of the exception. *)
Definition sample_metadata (now : string) (err : option exn) : value :=
  VObj ([ ("scrapedAt", VStr now);
          ("totalProducts", of_nat (List.length (generateSampleProducts now)));
          ("source", VStr "sample_data") ]
        ++ match err with
           | Some TypeError => [ ("error", VStr "TypeError") ]
           | Some SyntaxError => [ ("error", VStr "SyntaxError") ]
           | Some SystemError => [ ("error", VStr "SystemError") ]
           | None => []
           end).

Definition sample_state (now : string) (err : option exn) : catalog_state :=
  {| productsData := VArr (generateSampleProducts now);
     productsMetadata := sample_metadata now err |}.

Definition isArray (v : value) : bool :=
  match v with VArr _ => true | _ => false end.

(** The statements of [loadProductData] after both reads: parse, pick
    the shape, then replace an empty list. *)
Definition load_parsed (now : string) (rawData : option value)
  : result catalog_state :=
  parsedData <- Server.JSON_parse rawData ;;
  products <- get "products" parsedData ;;
  metadata <- (if truthy products then get "metadata" parsedData else Ok products) ;;
  let st :=
    if truthy products && truthy metadata then
      {| productsData := products; productsMetadata := metadata |}
    else if isArray parsedData then
      {| productsData := parsedData;
         productsMetadata :=
           VObj [ ("scrapedAt", VStr now);
                  ("totalProducts",
                   match parsedData with
                   | VArr l => of_nat (List.length l)
                   | _ => VUndefined
                   end);
                  ("source", VStr "legacy_data") ] |}
    else sample_state now None in
  len <- get "length" (productsData st) ;;
  Ok (if is_zero len
      then {| productsData := VArr (generateSampleProducts now);
              productsMetadata := productsMetadata st |}
      else st).

(** [loadProductData()]: the enhanced path first, then the local file. *)
Definition loadProductData (now : string) (enhanced fallback : Server.data_file)
  : catalog_state :=
  try_catch
    (match Server.readFileSync enhanced with
     | Ok rawData => load_parsed now rawData
     | Throw _ =>
         match Server.readFileSync fallback with
         | Ok rawData => load_parsed now rawData
         | Throw _ => Ok (sample_state now None)
         end
     end)
    (fun error => sample_state now (Some error)).

Section Normalizer.
Context {B : Builtins}.

(** [product.components?.K?.rest] *)
Definition component (k : string) (rest : value -> result value)
  (product : value) : result value :=
  components <- get "components" product ;;
  opt_chain components (fun c => block <- get k c ;; opt_chain block rest).

(** [product.K?.field] *)
Definition top_level (k field : string) (product : value) : result value :=
  block <- get k product ;;
  opt_chain block (get field).

(** The callback of [images.map]. *)
Definition transformImage (img : value) : result ProductImage :=
  u <- get "url" img ;;
  a <- get "altText" img ;;
  alt <- or_else_r a (get "alt" img) ;;
  Ok {| url := u; altText := or_else alt (VStr "Product image") |}.

(** The callback of [product.variants.map]. *)
Definition transformVariant (product : value) (variant : value) (index : nat)
  : result ProductVariant :=
  pid <- get "id" product ;;
  v_name <- get "name" variant ;;
  v_sku <- get "sku" variant ;;
  v_price <- get "price" variant ;;
  pvs <- get "priceVariants" variant ;;
  cur <- opt_chain pvs (fun a => pv0 <- first_elem a ;;
                                 opt_chain pv0 (get "currency")) ;;
  cur' <- or_else_r cur (get "currency" variant) ;;
  v_stock <- get "stock" variant ;;
  v_isDefault <- get "isDefault" variant ;;
  Ok {| variant_id := ToString pid ++ "-variant-" ++ nat_to_string index;
        variant_name := v_name;
        variant_sku := v_sku;
        variant_price := v_price;
        variant_currency := or_else cur' (VStr "GBP");
        variant_stock := or_else v_stock (num 10);
        variant_isDefault := or_else v_isDefault (VBool (index =? 0)%nat) |}.

(** [product.components?.F?.content || { html: product.information?.F
    || dflt_html, plainText: product.information?.F?.replace(...) ||
    dflt_plain }] *)
Definition content_or_information (field dflt_html dflt_plain : string)
  (product : value) : result value :=
  content <- component field (get "content") product ;;
  or_else_r content
    (raw <- top_level "information" field product ;;
     stripped <- opt_chain raw replace_tags ;;
     Ok (VObj [ ("html", or_else raw (VStr dflt_html));
                ("plainText", or_else stripped (VStr dflt_plain)) ])).

(** [transformProduct(product)] *)
Definition transformProduct (product : value) : result Product :=
  chunk0 <- component "specifications"
              (fun s => chunks <- get "chunks" s ;; first_elem chunks) product ;;
  specs <- or_else_r chunk0
             (basic <- top_level "specifications" "basic" product ;;
              Ok (or_else basic (VObj []))) ;;
  description <-
    content_or_information "description" "<p>High-quality infrared heater.</p>"
      "High-quality infrared heater." product ;;
  features <-
    content_or_information "features"
      "<ul><li>Energy efficient heating</li></ul>" "Energy efficient heating"
      product ;;
  component_images <- component "productImages" (get "images") product ;;
  images <- or_else_r component_images
              (media <- top_level "media" "images" product ;;
               Ok (or_else media (VArr []))) ;;
  p_id <- get "id" product ;;
  p_name <- get "name" product ;;
  p_path <- get "path" product ;;
  p_category <- get "category" product ;;
  d_html <- get "html" description ;;
  d_plain <- get "plainText" description ;;
  s_wattage <- get "wattage" specs ;;
  s_dimensions <- get "dimensions" specs ;;
  s_weight <- get "weight" specs ;;
  s_coverage <- get "coverage" specs ;;
  coverage' <- or_else_r s_coverage (top_level "specifications" "coverage" product) ;;
  s_mounting <- get "mounting" specs ;;
  s_efficiency <- get "efficiency" specs ;;
  efficiency' <- or_else_r s_efficiency
                   (top_level "specifications" "efficiency" product) ;;
  f_html <- get "html" features ;;
  f_plain <- get "plainText" features ;;
  image_list <- as_array images ;;
  imgs <- map_r transformImage image_list ;;
  raw_variants <- get "variants" product ;;
  variant_list <- as_array raw_variants ;;
  vs <- mapi_from 0 (transformVariant product) variant_list ;;
  p_price <- Server.first_variant_price product ;;
  v0 <- first_elem raw_variants ;;
  cur <- opt_chain v0 (fun v =>
           pvs <- get "priceVariants" v ;;
           opt_chain pvs (fun a => pv0 <- first_elem a ;;
                                   opt_chain pv0 (get "currency"))) ;;
  cur' <- or_else_r cur (opt_chain v0 (get "currency")) ;;
  p_sourceUrl <- get "sourceUrl" product ;;
  p_extractedAt <- get "extractedAt" product ;;
  w <- component "warranty" (get "text") product ;;
  w' <- or_else_r w (top_level "information" "warranty" product) ;;
  Ok {| id := p_id;
        name := p_name;
        path := p_path;
        category := p_category;
        description := {| html := d_html; plainText := d_plain |};
        specifications :=
          {| wattage := or_else s_wattage (num 0);
             dimensions := or_else s_dimensions (VStr "Unknown");
             weight := or_else s_weight (num 0);
             coverage := or_else coverage' VNull;
             mounting := or_else s_mounting (VStr "Wall mounted");
             efficiency := or_else efficiency' (VStr "A+ Energy Rating") |};
        features := {| html := f_html; plainText := f_plain |};
        images := imgs;
        variants := vs;
        price := p_price;
        currency := or_else cur' (VStr "GBP");
        sourceUrl := or_else p_sourceUrl VNull;
        extractedAt := or_else p_extractedAt VNull;
        warranty := or_else w' (VStr "2 year manufacturer warranty") |}.

End Normalizer.

End Enhanced.

(* ================================================================== *)
(** * Reference notions the properties are stated with *)
(* ================================================================== *)

Module Reference.

(** [t] occurs in [s] as a contiguous substring. *)
Definition substring_of (t s : string) : Prop :=
  exists pre post, s = pre ++ t ++ post.


(** The property path [ks] leads to something other than [null] or
    [undefined]. *)
Definition has (ks : list string) (o : value) : bool :=
  match get_path ks o with
  | Ok v => negb (nullish v)
  | Throw _ => false
  end.

(** The value a property path leads to, [undefined] when the path
    breaks off: what the optional chain [o?.k1?.k2...] yields. *)
Definition at_path (ks : list string) (o : value) : value :=
  match get_path ks o with
  | Ok v => v
  | Throw _ => VUndefined
  end.


(** A raw variant [Server.transformProduct] can dereference. *)
Definition has_price_variants (v : value) : bool := has ["priceVariants"] v.

(** The raw records of the shape the scraper writes and
    [generateSampleProducts] shows: the four component blocks and an
    array of variants, each with its [priceVariants]. *)
Definition well_formed (p : value) : bool :=
  has ["components"; "specifications"; "chunks"] p
  && has ["components"; "description"; "content"] p
  && has ["components"; "features"; "content"] p
  && has ["components"; "productImages"] p
  && match get "variants" p with
     | Ok (VArr vs) => forallb has_price_variants vs
     | _ => false
     end.










(** [lo <= x <= hi] on numbers, a missing bound being no constraint. *)
Definition in_bounds (lo hi : option Qc) (x : Qc) : Prop :=
  (forall m, lo = Some m -> (m <= x)%Qc) /\ (forall m, hi = Some m -> (x <= m)%Qc).

Section FilterPredicates.
Context {B : Builtins}.

(** The category of the product contains [c], case folded. *)
Definition category_matches (c : string) (P : Server.Product) : bool :=
  match Server.category P with
  | VStr pc => includes (toLowerCase pc) (toLowerCase c)
  | _ => false
  end.

(** The conjunction of the filter's predicates on a normalized product;
    [bound] says which numeric bounds count as present. *)
Definition satisfies_with (bound_q : arg Qc -> option Qc)
  (bound_z : arg Z -> option Z) (f : Server.ProductFilter)
  (P : Server.Product) : bool :=
  match given_string (Server.filter_category f) with
  | Some c => category_matches c P
  | None => true
  end
  && Server.within (bound_q (Server.minPrice f)) (bound_q (Server.maxPrice f))
       (Server.price P)
  && Server.within (option_map of_int (bound_z (Server.minWattage f)))
       (option_map of_int (bound_z (Server.maxWattage f)))
       (Server.wattage (Server.specifications P)).


(** Only the non-zero bounds count, as the resolver tests them. *)
Definition satisfies := satisfies_with given_number given_int.





End FilterPredicates.

(** A filter with one bound replaced. *)
Definition with_minPrice (f : Server.ProductFilter) (a : arg Qc) :=
  {| Server.filter_category := Server.filter_category f;
     Server.minPrice := a;
     Server.maxPrice := Server.maxPrice f;
     Server.minWattage := Server.minWattage f;
     Server.maxWattage := Server.maxWattage f |}.

Definition with_maxPrice (f : Server.ProductFilter) (a : arg Qc) :=
  {| Server.filter_category := Server.filter_category f;
     Server.minPrice := Server.minPrice f;
     Server.maxPrice := a;
     Server.minWattage := Server.minWattage f;
     Server.maxWattage := Server.maxWattage f |}.

Definition with_minWattage (f : Server.ProductFilter) (a : arg Z) :=
  {| Server.filter_category := Server.filter_category f;
     Server.minPrice := Server.minPrice f;
     Server.maxPrice := Server.maxPrice f;
     Server.minWattage := a;
     Server.maxWattage := Server.maxWattage f |}.

Definition with_maxWattage (f : Server.ProductFilter) (a : arg Z) :=
  {| Server.filter_category := Server.filter_category f;
     Server.minPrice := Server.minPrice f;
     Server.maxPrice := Server.maxPrice f;
     Server.minWattage := Server.minWattage f;
     Server.maxWattage := a |}.

Definition no_filter : Server.ProductFilter :=
  {| Server.filter_category := Omitted;
     Server.minPrice := Omitted;
     Server.maxPrice := Omitted;
     Server.minWattage := Omitted;
     Server.maxWattage := Omitted |}.






(** The record carries the requested id. *)
Definition has_id (id : string) (p : value) : bool :=
  strict_eq_string (at_path ["id"] p) id.

Section QueryPredicates.
Context {B : Builtins}.



End QueryPredicates.



(** No [<] of the string is followed by a [>]: there is no tag left. *)
Definition tag_free (s : string) : Prop :=
  forall pre mid post, s <> pre ++ "<" ++ mid ++ ">" ++ post.

(** A verifier that accepts one token under one secret. *)
Definition single_token_jwt (token secret : string) (payload : value)
  : Auth.JwtLibrary :=
  {| Auth.jwt_verify := fun t s =>
       if String.eqb t token && String.eqb s secret then Some payload
       else None |}.

(** The development bypass of the authentication check is on. *)
Definition bypass (env : Auth.environment) : bool :=
  match Auth.NODE_ENV env with
  | Some e => String.eqb e "development"
  | None => false
  end && negb (Auth.AUTH_REQUIRED env).

(** The server runs in production. *)
Definition production (env : Auth.environment) : bool :=
  match Auth.NODE_ENV env with
  | Some e => String.eqb e "production"
  | None => false
  end.

(** Whatever follows a [<] of the string holds no [>]. *)
Definition clean (r : string) : Prop :=
  forall pre post, r = pre ++ "<" ++ post -> has_gt post = false.

(** ASCII case folding, and conversions that know no numeral: an
    instance of the built-ins to run the model on examples. *)
Definition lower_ascii (c : ascii) : ascii :=
  let n := nat_of_ascii c in
  if ((65 <=? n) && (n <=? 90))%nat then ascii_of_nat (n + 32) else c.

Fixpoint lower_string (s : string) : string :=
  match s with
  | EmptyString => EmptyString
  | String c rest => String (lower_ascii c) (lower_string rest)
  end.

Definition ascii_builtins : Builtins :=
  {| toLowerCase := lower_string;
     StringToNumber := fun _ => NaN;
     NumberToString := fun _ => "NaN" |}.

End Reference.

Import Reference.

(* ================================================================== *)
(** * Raw records used as concrete inputs *)
(* ================================================================== *)

Module Examples.

Definition text_block (h t : string) : value :=
  VObj [ ("content", VObj [ ("html", VStr h); ("plainText", VStr t) ]) ].

Definition variant (n : string) (pr : Q) (cur : string) (dflt : bool) : value :=
  VObj [ ("name", VStr n); ("sku", VStr n); ("price", num pr);
         ("priceVariants", VArr [ VObj [ ("currency", VStr cur) ] ]);
         ("stock", num 3); ("isDefault", VBool dflt) ].

(** A record in the component shape with the given specification
    chunks, category, price-bearing variants and name. *)
Definition record (pname cat : string) (chunks vs : list value) : value :=
  VObj [ ("id", VStr pname); ("name", VStr pname); ("path", VStr "/p");
         ("category", VStr cat);
         ("components", VObj
           [ ("description", text_block "<p>Slim panel</p>" "Slim panel");
             ("specifications", VObj [ ("chunks", VArr chunks) ]);
             ("features", text_block "<ul><li>Quiet</li></ul>" "Quiet");
             ("productImages", VObj [ ("images", VArr []) ]) ]);
         ("variants", VArr vs) ].

Definition chunk (w : Q) : value := VObj [ ("wattage", num w) ].

(** Two variants; only the second one is flagged as the default. *)
Definition flagged_second : value :=
  record "h1" "Panel Heaters" [ chunk 600 ]
    [ variant "white" 100 "GBP" false; variant "black" 200 "EUR" true ].

(** No variant at all. *)
Definition no_variants : value :=
  record "h2" "Panel Heaters" [ chunk 600 ] [].

(** A specifications block without any chunk. *)
Definition no_chunks : value :=
  record "h3" "Panel Heaters" [] [ variant "white" 100 "GBP" true ].


(** All blocks in place, but no [variants] property. *)
Definition no_variants_property : value :=
  VObj [ ("id", VStr "h5"); ("name", VStr "h5"); ("path", VStr "/p");
         ("category", VStr "Panel Heaters");
         ("components", VObj
           [ ("description", text_block "<p>Slim panel</p>" "Slim panel");
             ("specifications", VObj [ ("chunks", VArr [ chunk 600 ]) ]);
             ("features", text_block "<ul><li>Quiet</li></ul>" "Quiet");
             ("productImages", VObj [ ("images", VArr []) ]) ]) ].

(** A record in the flat shape: [information], [specifications.basic]
    and [media], one variant without [isDefault] or [priceVariants]. *)
Definition flat_record : value :=
  VObj [ ("id", VStr "f1"); ("name", VStr "Flat heater"); ("path", VStr "/f");
         ("category", VStr "Panel Heaters");
         ("information", VObj
           [ ("description", VStr "<p>Warm <b>and</b> quiet</p>") ]);
         ("specifications", VObj
           [ ("basic", VObj [ ("wattage", num 900) ]) ]);
         ("media", VObj
           [ ("images", VArr [ VObj [ ("url", VStr "u"); ("alt", VStr "side") ] ]) ]);
         ("variants", VArr
           [ VObj [ ("name", VStr "v"); ("sku", VStr "s");
                    ("price", num (44999 # 100)) ] ]) ].

(** A record in the flat shape with an empty [variants] array. *)
Definition flat_no_variants : value :=
  VObj [ ("id", VStr "f2"); ("name", VStr "Flat heater"); ("path", VStr "/f");
         ("category", VStr "Panel Heaters");
         ("information", VObj
           [ ("description", VStr "<p>Warm <b>and</b> quiet</p>") ]);
         ("specifications", VObj
           [ ("basic", VObj [ ("wattage", num 900) ]) ]);
         ("media", VObj
           [ ("images", VArr [ VObj [ ("url", VStr "u"); ("alt", VStr "side") ] ]) ]);
         ("variants", VArr []) ].

(** An empty [variants] array and a specifications block without
    [chunks]. *)
Definition no_variants_no_chunks : value :=
  VObj [ ("id", VStr "f3"); ("name", VStr "f3"); ("path", VStr "/f");
         ("category", VStr "Panel Heaters");
         ("components", VObj [ ("specifications", VObj []) ]);
         ("variants", VArr []) ].

(** Four heaters priced 199.99, 200.00, 500.00 and 500.01. *)
Definition price_catalog : list value :=
  [ record "a" "Panel Heaters" [ chunk 600 ] [ variant "v" (19999 # 100) "GBP" true ];
    record "b" "Panel Heaters" [ chunk 600 ] [ variant "v" 200 "GBP" true ];
    record "c" "Bar Heaters" [ chunk 900 ] [ variant "v" 500 "GBP" true ];
    record "d" "Panel Heaters" [ chunk 900 ] [ variant "v" (50001 # 100) "GBP" true ] ].



(** Panel heaters from 200 to 500, of 500 W to 1000 W. *)
Definition panels_200_to_500 : Server.ProductFilter :=
  {| Server.filter_category := Given "PANEL";
     Server.minPrice := Given (Q2Qc 200);
     Server.maxPrice := Given (Q2Qc 500);
     Server.minWattage := Given 500%Z;
     Server.maxWattage := Given 1000%Z |}.

(** A production environment with an API key and a JWT secret. *)
Definition production_env : Auth.environment :=
  {| Auth.NODE_ENV := Some "production";
     Auth.AUTH_REQUIRED_var := Some "true";
     Auth.API_KEY := Some "k-123";
     Auth.JWT_SECRET := Some "s3cret" |}.


End Examples.

(* ================================================================== *)
(** * Properties *)
(* ================================================================== *)

(** One step through a sequence of reads that is known to have
    succeeded. *)
Ltac bind_step H x E :=
  match type of H with
  | bind ?c _ = Ok _ =>
      destruct c as [x|] eqn:E; [cbn [bind] in H | discriminate H]
  end.

Section Reads.
Context {B : Builtins}.

(** ** Reads and optional chains *)

Lemma get_not_nullish k o : nullish o = false -> exists v, get k o = Ok v.
Proof. destruct o; simpl; intros H; try discriminate; eauto. Qed.

Lemma get_nullish k o : nullish o = true -> get k o = Throw TypeError.
Proof. destruct o; simpl; intros H; try discriminate; reflexivity. Qed.

Lemma has_nil o : has [] o = negb (nullish o).
Proof. reflexivity. Qed.

Lemma has_cons k ks o :
  has (k :: ks) o = true ->
  exists v, get k o = Ok v /\ has ks v = true.
Proof.
  unfold has; simpl. destruct (get k o) as [v|e]; simpl; [eauto | discriminate].
Qed.

Lemma has_last ks o :
  has ks o = true -> forall k, exists v, get_path (ks ++ [k]) o = Ok v.
Proof.
  revert o; induction ks as [|k' ks IH]; intros o H k.
  - simpl. rewrite has_nil in H. apply negb_true_iff in H.
    destruct (get_not_nullish k o H) as [v ->]. simpl; eauto.
  - apply has_cons in H as (v & Hg & Hv). simpl. rewrite Hg. simpl. auto.
Qed.

Lemma truthy_not_nullish v : truthy v = true -> nullish v = false.
Proof. destruct v; simpl; intros; try discriminate; reflexivity. Qed.

Lemma or_else_not_nullish a b : nullish b = false -> nullish (or_else a b) = false.
Proof.
  unfold or_else. destruct (truthy a) eqn:T; auto using truthy_not_nullish.
Qed.

Lemma opt_chain_get k o : exists v, opt_chain o (get k) = Ok v.
Proof.
  unfold opt_chain. destruct (nullish o) eqn:N; eauto using get_not_nullish.
Qed.

Lemma get_eq k o : nullish o = false -> get k o = Ok (at_path [k] o).
Proof.
  intros N. unfold at_path. simpl.
  destruct (get_not_nullish k o N) as [v ->]. reflexivity.
Qed.

Lemma at_path_cons k ks o :
  at_path (k :: ks) o = at_path ks (at_path [k] o).
Proof.
  unfold at_path. simpl. destruct (get k o) as [v|e]; simpl.
  - reflexivity.
  - destruct ks; simpl; reflexivity.
Qed.

(** [o?.k] is the total read. *)
Lemma opt_chain_get_eq k o : opt_chain o (get k) = Ok (at_path [k] o).
Proof.
  unfold opt_chain. destruct (nullish o) eqn:N.
  - destruct o; try discriminate; reflexivity.
  - apply get_eq, N.
Qed.


Lemma first_elem_not_nullish o :
  nullish o = false -> exists v, first_elem o = Ok v.
Proof. destruct o; simpl; intros H; try discriminate; eauto. Qed.

End Reads.

(** ** The normalizer of src/server.js *)

Section ServerNormalizer.
Context {B : Builtins}.
Import Server.

(** What a successful call of [transformProduct] read and built. *)
Lemma transformProduct_inv p P :
  transformProduct p = Ok P ->
  exists chunks chunk0 w d wt vs,
    get_path ["components"; "specifications"; "chunks"] p = Ok chunks
    /\ first_elem chunks = Ok chunk0
    /\ get "wattage" (or_else chunk0 (VObj [])) = Ok w
    /\ get "dimensions" (or_else chunk0 (VObj [])) = Ok d
    /\ get "weight" (or_else chunk0 (VObj [])) = Ok wt
    /\ specifications P =
         {| wattage := or_else w (num 0);
            dimensions := or_else d (VStr "Unknown");
            weight := or_else wt (num 0) |}
    /\ get "variants" p = Ok (VArr vs)
    /\ mapi_from 0 (transformVariant p) vs = Ok (variants P)
    /\ first_variant_price p = Ok (price P)
    /\ first_variant_currency p = Ok (currency P).
Proof.
  unfold transformProduct. intros H.
  bind_step H chunks Echunks. bind_step H chunk0 Echunk0.
  bind_step H p_id Eid. bind_step H p_name Ename. bind_step H p_path Epath.
  bind_step H p_cat Ecat. bind_step H d_html Edh. bind_step H d_plain Edp.
  bind_step H w Ew. bind_step H d Ed. bind_step H wt Ewt.
  bind_step H f_html Efh. bind_step H f_plain Efp. bind_step H imgs Eimgs.
  bind_step H raw Eraw. bind_step H vs Evs. bind_step H Vs EVs.
  bind_step H pr Epr. bind_step H cur Ecur.
  injection H as <-. cbn.
  destruct raw; try discriminate Evs. cbn in Evs. injection Evs as ->.
  exists chunks, chunk0, w, d, wt, vs. repeat split; assumption.
Qed.

Lemma has_price_variants_inv v :
  has_price_variants v = true ->
  nullish v = false
  /\ exists pvs, get "priceVariants" v = Ok pvs /\ nullish pvs = false.
Proof.
  intros H. apply has_cons in H as (pvs & Hg & Hp).
  rewrite has_nil in Hp. apply negb_true_iff in Hp. split; [|eauto].
  destruct (nullish v) eqn:N; [|reflexivity].
  rewrite (get_nullish _ _ N) in Hg. discriminate.
Qed.

Lemma transformVariant_ok p v i :
  nullish p = false -> has_price_variants v = true ->
  exists V, transformVariant p v i = Ok V.
Proof.
  intros Np Hv. apply has_price_variants_inv in Hv as (Nv & pvs & Hpv & Npv).
  unfold transformVariant.
  destruct (get_not_nullish "id" p Np) as [x ->]; cbn [bind].
  destruct (get_not_nullish "name" v Nv) as [x1 ->]; cbn [bind].
  destruct (get_not_nullish "sku" v Nv) as [x2 ->]; cbn [bind].
  destruct (get_not_nullish "price" v Nv) as [x3 ->]; cbn [bind].
  rewrite Hpv; cbn [bind].
  destruct (first_elem_not_nullish pvs Npv) as [pv0 ->]; cbn [bind].
  destruct (opt_chain_get "currency" pv0) as [c ->]; cbn [bind].
  destruct (get_not_nullish "stock" v Nv) as [x4 ->]; cbn [bind].
  destruct (get_not_nullish "isDefault" v Nv) as [x5 ->]; cbn [bind].
  eauto.
Qed.

Lemma mapi_from_ok {X Y} (f : X -> nat -> result Y) (ok : X -> bool) xs :
  (forall x i, ok x = true -> exists y, f x i = Ok y) ->
  forallb ok xs = true ->
  forall i, exists ys, mapi_from i f xs = Ok ys.
Proof.
  intros Hf. induction xs as [|x xs IH]; intros Hall i; simpl.
  - eauto.
  - simpl in Hall. apply andb_true_iff in Hall as [Hx Hxs].
    destruct (Hf x i Hx) as [y ->]. cbn [bind].
    destruct (IH Hxs (S i)) as [ys ->]. cbn [bind]. eauto.
Qed.

Lemma first_variant_price_ok p vs :
  get "variants" p = Ok (VArr vs) -> exists pr, first_variant_price p = Ok pr.
Proof.
  intros Hv. unfold first_variant_price. rewrite Hv. cbn [bind first_elem].
  destruct (opt_chain_get "price" (nth 0 vs VUndefined)) as [x ->]. cbn [bind].
  eauto.
Qed.

Lemma first_variant_currency_ok p vs :
  get "variants" p = Ok (VArr vs) -> forallb has_price_variants vs = true ->
  exists c, first_variant_currency p = Ok c.
Proof.
  intros Hv Hall. unfold first_variant_currency. rewrite Hv.
  cbn [bind first_elem].
  destruct vs as [|v0 rest]; [cbn; eauto|]. cbn [nth].
  simpl in Hall. apply andb_true_iff in Hall as [H0 _].
  apply has_price_variants_inv in H0 as (Nv & pvs & Hpv & Npv).
  unfold opt_chain at 1. rewrite Nv, Hpv. cbn [bind].
  destruct (first_elem_not_nullish pvs Npv) as [pv0 ->]; cbn [bind].
  destruct (opt_chain_get "currency" pv0) as [c ->]; cbn [bind]. eauto.
Qed.

Lemma has_not_nullish k ks p : has (k :: ks) p = true -> nullish p = false.
Proof.
  intros H. apply has_cons in H as (v & Hg & _).
  destruct (nullish p) eqn:N; [|reflexivity].
  rewrite (get_nullish _ _ N) in Hg. discriminate.
Qed.

Lemma has_get_path ks o :
  has ks o = true -> exists v, get_path ks o = Ok v /\ nullish v = false.
Proof.
  unfold has. destruct (get_path ks o) as [v|]; [|discriminate].
  intros H. apply negb_true_iff in H. eauto.
Qed.

(** The scraper's shape is enough for [transformProduct] to return. *)
Lemma transformProduct_total p :
  well_formed p = true -> exists P, transformProduct p = Ok P.
Proof.
  unfold well_formed. intros H.
  apply andb_true_iff in H as [H Hvars].
  apply andb_true_iff in H as [H Himgs].
  apply andb_true_iff in H as [H Hfeat].
  apply andb_true_iff in H as [H Hdesc].
  destruct (get "variants" p) as [[| | | | |vs|]|] eqn:Hvs; try discriminate.
  pose proof (has_not_nullish _ _ _ H) as Np.
  unfold transformProduct.
  destruct (has_get_path _ _ H) as (chunks & -> & Nch); cbn [bind].
  destruct (first_elem_not_nullish chunks Nch) as [chunk0 ->]; cbn [bind].
  assert (Ns : nullish (or_else chunk0 (VObj [])) = false)
    by (apply or_else_not_nullish; reflexivity).
  destruct (get_not_nullish "id" p Np) as [x ->]; cbn [bind].
  destruct (get_not_nullish "name" p Np) as [x1 ->]; cbn [bind].
  destruct (get_not_nullish "path" p Np) as [x2 ->]; cbn [bind].
  destruct (get_not_nullish "category" p Np) as [x3 ->]; cbn [bind].
  destruct (has_last _ _ Hdesc "html") as [x4 E4]; cbn [app] in E4; rewrite E4; cbn [bind].
  destruct (has_last _ _ Hdesc "plainText") as [x5 E5]; cbn [app] in E5; rewrite E5; cbn [bind].
  destruct (get_not_nullish "wattage" _ Ns) as [x6 ->]; cbn [bind].
  destruct (get_not_nullish "dimensions" _ Ns) as [x7 ->]; cbn [bind].
  destruct (get_not_nullish "weight" _ Ns) as [x8 ->]; cbn [bind].
  destruct (has_last _ _ Hfeat "html") as [x9 E9]; cbn [app] in E9; rewrite E9; cbn [bind].
  destruct (has_last _ _ Hfeat "plainText") as [x10 E10]; cbn [app] in E10; rewrite E10; cbn [bind].
  destruct (has_last _ _ Himgs "images") as [x11 E11]; cbn [app] in E11; rewrite E11; cbn [bind].
  rewrite Hvs; cbn [bind as_array].
  destruct (mapi_from_ok (transformVariant p) has_price_variants vs
              (fun v i => transformVariant_ok p v i Np) Hvars 0%nat) as [Vs ->];
    cbn [bind].
  destruct (first_variant_price_ok p vs Hvs) as [pr ->]; cbn [bind].
  destruct (first_variant_currency_ok p vs Hvs Hvars) as [c ->]; cbn [bind].
  eauto.
Qed.


(** C10.  A raw record of the scraper's shape whose [variants] array is
    empty is not rejected and gets no made-up variant: the product has
    no variants, price 0 and currency "GBP". *)
Theorem C10_zero_variants (p : value) :
  well_formed p = true ->
  get "variants" p = Ok (VArr []) ->
  exists P,
    transformProduct p = Ok P
    /\ variants P = []
    /\ price P = num 0
    /\ currency P = VStr "GBP".
Proof.
  intros Hwf Hv.
  destruct (transformProduct_total p Hwf) as [P HP].
  exists P. split; [assumption|].
  destruct (transformProduct_inv p P HP)
    as (chunks & chunk0 & w & d & wt & vs & _ & _ & _ & _ & _ & _
        & Hvs & Hmap & Hprice & Hcur).
  rewrite Hv in Hvs. injection Hvs as <-.
  unfold first_variant_price in Hprice. rewrite Hv in Hprice.
  unfold first_variant_currency in Hcur. rewrite Hv in Hcur.
  cbn in Hmap, Hprice, Hcur.
  repeat split; congruence.
Qed.




End ServerNormalizer.

Section ServerDomain.
Context {B : Builtins}.
Import Server.






End ServerDomain.

(** ** The normalizer of the enhanced server *)

Section EnhancedNormalizer.
Context {B : Builtins}.
Import Enhanced.

Lemma component_get k f p :
  nullish p = false ->
  component k (get f) p = Ok (at_path ["components"; k; f] p).
Proof.
  intros N. unfold component. rewrite (get_eq _ _ N). cbn [bind].
  rewrite (at_path_cons "components" [k; f]).
  generalize (at_path ["components"] p) as c. intros c.
  unfold opt_chain at 1. destruct (nullish c) eqn:Nc.
  - f_equal. destruct c; try discriminate; reflexivity.
  - rewrite (get_eq _ _ Nc). cbn [bind].
    rewrite (at_path_cons k [f]). apply opt_chain_get_eq.
Qed.

Lemma top_level_eq k f p :
  nullish p = false -> top_level k f p = Ok (at_path [k; f] p).
Proof.
  intros N. unfold top_level. rewrite (get_eq _ _ N). cbn [bind].
  rewrite (at_path_cons k [f]). apply opt_chain_get_eq.
Qed.










End EnhancedNormalizer.

(** ** Totality of the normalizers and their defaults *)

Section NormalizerDefaults.
Context {B : Builtins}.


End NormalizerDefaults.

(** ** The loaders *)

(** The start-up code of src/server.js, case by case. *)
Lemma server_productsData_cases f :
  Server.productsData f =
  match f with
  | Server.FileMissing | Server.FileText None =>
      VArr Server.generateSampleProducts
  | Server.FileText (Some parsed) =>
      if nullish parsed then VArr Server.generateSampleProducts
      else or_else (at_path ["products"] parsed) (VArr [])
  end.
Proof.
  destruct f as [|[parsed|]]; try reflexivity.
  unfold Server.productsData. cbn [Server.readFileSync Server.JSON_parse bind].
  destruct (nullish parsed) eqn:N.
  - rewrite (get_nullish _ _ N). reflexivity.
  - rewrite (get_eq _ _ N). reflexivity.
Qed.

(** C3 on src/server.js: the start-up code falls back to the sample
    catalog only when reading or parsing throws; a file that parses to
    an object with an empty or missing [products] leaves the catalog
    empty. *)
Theorem C3_server_catalog_can_be_empty :
  Server.productsData
    (Server.FileText (Some (VObj [ ("products", VArr []) ]))) = VArr []
  /\ Server.productsData (Server.FileText (Some (VObj []))) = VArr []
  /\ Server.productsData Server.FileMissing
     = VArr Server.generateSampleProducts
  /\ Server.productsData (Server.FileText None)
     = VArr Server.generateSampleProducts
  /\ Server.productsData (Server.FileText (Some VNull))
     = VArr Server.generateSampleProducts.
Proof. repeat split; reflexivity. Qed.

Lemma load_parsed_not_empty now raw st :
  Enhanced.load_parsed now raw = Ok st ->
  Enhanced.productsData st <> VArr [].
Proof.
  unfold Enhanced.load_parsed. intros H.
  bind_step H parsed Ep. bind_step H products Eprod. bind_step H metadata Em.
  match type of H with
  | bind (get "length" (Enhanced.productsData ?s)) _ = _ => set (st0 := s) in H
  end.
  bind_step H len El. injection H as <-.
  destruct (is_zero len) eqn:Z.
  - cbn. discriminate.
  - intros Heq. rewrite Heq in El. cbn in El. injection El as <-.
    discriminate Z.
Qed.

(** X15.  The enhanced loader replaces an empty result: whatever the two
    files hold, the catalog it leaves is not the empty list, and it is
    the sample catalog when both files are missing, when the text does
    not parse, and when the parsed shape has an empty or missing record
    list. *)
Lemma enhanced_loader_never_empty now enhanced fallback :
  Enhanced.productsData (Enhanced.loadProductData now enhanced fallback)
  <> VArr [].
Proof.
  unfold Enhanced.loadProductData.
  destruct enhanced as [|raw]; cbn [Server.readFileSync].
  - destruct fallback as [|raw]; cbn [Server.readFileSync].
    + cbn. discriminate.
    + destruct (Enhanced.load_parsed now raw) as [st|e] eqn:E; cbn.
      * eapply load_parsed_not_empty; eassumption.
      * discriminate.
  - destruct (Enhanced.load_parsed now raw) as [st|e] eqn:E; cbn.
    + eapply load_parsed_not_empty; eassumption.
    + discriminate.
Qed.

Lemma enhanced_loader_sample_cases now :
  let sample := VArr (Enhanced.generateSampleProducts now) in
  let load f := Enhanced.productsData
                  (Enhanced.loadProductData now f Server.FileMissing) in
  Enhanced.productsData
    (Enhanced.loadProductData now Server.FileMissing Server.FileMissing)
  = sample
  /\ load (Server.FileText None) = sample
  /\ load (Server.FileText (Some (VObj []))) = sample
  /\ load (Server.FileText (Some (VArr []))) = sample
  /\ load (Server.FileText (Some (VObj [ ("products", VArr []) ]))) = sample
  /\ (forall m,
        load (Server.FileText
                (Some (VObj [ ("products", VArr []); ("metadata", m) ])))
        = sample).
Proof.
  cbn zeta. repeat split; try reflexivity.
  intros m. unfold Enhanced.loadProductData, Enhanced.load_parsed. cbn.
  destruct (truthy m); reflexivity.
Qed.

(** ** Arrays: filtering, mapping and slicing with callbacks that return *)

Section Arrays.
Context {X Y : Type}.
Variable T : X -> Y -> Prop.


Lemma mapi_from_Forall2 (f : X -> result Y) xs : forall i ys,
  mapi_from i (fun x _ => f x) xs = Ok ys <->
  Forall2 (fun x y => f x = Ok y) xs ys.
Proof.
  induction xs as [|x xs IH]; intros i ys; simpl.
  - split; intros H.
    + injection H as <-. constructor.
    + inversion H. reflexivity.
  - split; intros H.
    + bind_step H y Ey. bind_step H ys' Eys. injection H as <-.
      constructor; [assumption|]. apply (IH (S i)). assumption.
    + inversion H as [|? y ? ys' Hy Hys]; subst.
      rewrite Hy. cbn [bind].
      apply (IH (S i)) in Hys. rewrite Hys. reflexivity.
Qed.

Lemma map_r_Forall2 (f : X -> result Y) xs ys :
  map_r f xs = Ok ys <-> Forall2 (fun x y => f x = Ok y) xs ys.
Proof. apply mapi_from_Forall2. Qed.




End Arrays.



Lemma slice0_nonneg {X} (xs : list X) (e : Z) :
  (0 <= e)%Z -> slice0 xs e = firstn (Z.to_nat e) xs.
Proof.
  intros He. unfold slice0.
  destruct (e <? 0)%Z eqn:E; [apply Z.ltb_lt in E; lia|].
  destruct (Z.le_ge_cases e (Z.of_nat (List.length xs))) as [L|G].
  - rewrite Z.min_l by assumption. reflexivity.
  - rewrite Z.min_r by assumption. rewrite Nat2Z.id.
    rewrite firstn_all. symmetry. apply firstn_all2. lia.
Qed.

(** ** The resolvers of src/server.js on normalized products *)

Section ServerResolvers.
Context {B : Builtins}.
Import Server.













End ServerResolvers.

(** ** Substrings *)

Lemma prefix_app t s : String.prefix t s = true <-> exists r, s = t ++ r.
Proof.
  revert s. induction t as [|c t IH]; intros s; simpl.
  - split; [intros _; exists s; reflexivity | destruct s; reflexivity].
  - destruct s as [|d s]; simpl.
    + split; [discriminate | intros [r Hr]; discriminate].
    + destruct (ascii_dec c d) as [->|Hcd].
      * rewrite IH. split; intros [r Hr]; exists r; congruence.
      * split; [discriminate | intros [r Hr]; congruence].
Qed.

Lemma includes_substring s t : includes s t = true <-> substring_of t s.
Proof.
  unfold substring_of. induction s as [|c s IH]; cbn [includes].
  - destruct (String.prefix t "") eqn:P.
    + split; [intros _|reflexivity].
      apply prefix_app in P as [r Hr]. exists "", r. exact Hr.
    + split; [discriminate|]. intros (pre & post & H).
      destruct pre; simpl in H; [|discriminate].
      assert (P' : String.prefix t "" = true) by (apply prefix_app; eauto).
      congruence.
  - destruct (String.prefix t (String c s)) eqn:P.
    + split; [intros _|reflexivity].
      apply prefix_app in P as [r Hr]. exists "", r. exact Hr.
    + rewrite IH. split.
      * intros (pre & post & H). exists (String c pre), post.
        simpl. congruence.
      * intros (pre & post & H). destruct pre as [|d pre]; simpl in H.
        -- assert (P' : String.prefix t (String c s) = true)
             by (apply prefix_app; eauto).
           congruence.
        -- injection H as _ H. eauto.
Qed.

(** ** Bounds *)

Lemma number_le_Fin a b : number_le (Fin a) (Fin b) = true <-> (a <= b)%Qc.
Proof. cbn. apply Qle_bool_iff. Qed.

Section Bounds.
Context {B : Builtins}.

Lemma within_in_bounds lo hi q :
  Server.within lo hi (VNum (Fin q)) = true <-> in_bounds lo hi q.
Proof.
  unfold Server.within, in_bounds, js_ge, js_le. cbn [ToNumber].
  rewrite andb_true_iff. split.
  - intros [H1 H2]. split; intros m ->; apply number_le_Fin; assumption.
  - intros [H1 H2]. split.
    + destruct lo as [m|]; [apply number_le_Fin; auto | reflexivity].
    + destruct hi as [m|]; [apply number_le_Fin; auto | reflexivity].
Qed.





End Bounds.

Section FilterMeaning.
Context {B : Builtins}.

(** The filter on a product with a string category and numeric price
    and wattage, in terms of substrings and inequalities. *)
Lemma satisfies_meaning f P c q w :
  Server.category P = VStr c ->
  Server.price P = VNum (Fin q) ->
  Server.wattage (Server.specifications P) = VNum (Fin w) ->
  satisfies f P = true <->
  (forall cat, given_string (Server.filter_category f) = Some cat ->
               substring_of (toLowerCase cat) (toLowerCase c))
  /\ in_bounds (given_number (Server.minPrice f))
       (given_number (Server.maxPrice f)) q
  /\ in_bounds (option_map of_int (given_int (Server.minWattage f)))
       (option_map of_int (given_int (Server.maxWattage f))) w.
Proof.
  intros Hc Hq Hw. unfold satisfies, satisfies_with.
  rewrite Hq, Hw, !andb_true_iff, !within_in_bounds.
  assert (Hcat : match given_string (Server.filter_category f) with
                 | Some c0 => category_matches c0 P
                 | None => true
                 end = true <->
                 (forall cat, given_string (Server.filter_category f) = Some cat ->
                              substring_of (toLowerCase cat) (toLowerCase c))).
  { destruct (given_string (Server.filter_category f)) as [c0|].
    - unfold category_matches. rewrite Hc, includes_substring.
      split; [intros H cat E; injection E as <-; exact H | auto].
    - split; [intros _ cat E; discriminate E | reflexivity]. }
  rewrite Hcat. tauto.
Qed.

End FilterMeaning.

(** ** The queries of src/server.js *)

Section QueryClaims.
Context {B : Builtins}.



(** C9.  A numeric bound of the filter whose value is 0 is treated as
    if it were absent: for every catalog value, limit and filter,
    setting [minPrice], [maxPrice], [minWattage] or [maxWattage] to 0
    gives the same outcome as leaving that bound out, and a filter that
    only says [maxPrice = 0] returns what no filter returns. *)
Theorem C9_zero_bound_is_no_bound
  (productsData : value) (first : arg Z) (f : Server.ProductFilter) :
  Server.products productsData first (Given (with_minPrice f (Given (Q2Qc 0))))
  = Server.products productsData first (Given (with_minPrice f Omitted))
  /\ Server.products productsData first (Given (with_maxPrice f (Given (Q2Qc 0))))
     = Server.products productsData first (Given (with_maxPrice f Omitted))
  /\ Server.products productsData first (Given (with_minWattage f (Given 0%Z)))
     = Server.products productsData first (Given (with_minWattage f Omitted))
  /\ Server.products productsData first (Given (with_maxWattage f (Given 0%Z)))
     = Server.products productsData first (Given (with_maxWattage f Omitted))
  /\ Server.products productsData first
       (Given (with_maxPrice no_filter (Given (Q2Qc 0))))
     = Server.products productsData first Omitted.
Proof.
  repeat split; reflexivity.
Qed.



End QueryClaims.

(** ** Distinct, sorted categories *)










Section Categories.
Context {B : Builtins}.






End Categories.

(* ================================================================== *)
(** * The claims at concrete inputs *)
(* ================================================================== *)




(** Neither revision returns on a record without [variants]. *)
Lemma normalizers_raise_without_variants :
  Server.transformProduct (B := ascii_builtins) Examples.no_variants_property
  = Throw TypeError
  /\ Enhanced.transformProduct (B := ascii_builtins)
       Examples.no_variants_property
     = Throw TypeError.
Proof. split; reflexivity. Qed.


(** C10 as the specification words it fails on a record in the flat
    shape: its [variants] array is empty, yet [transformProduct]
    raises on the missing [components] block instead of returning a
    product. *)
Lemma C10_counterexample :
  get "variants" Examples.flat_no_variants = Ok (VArr [])
  /\ Server.transformProduct (B := ascii_builtins) Examples.flat_no_variants
     = Throw TypeError
  /\ ~ (forall (B : Builtins) (p : value),
          get "variants" p = Ok (VArr []) ->
          exists P,
            Server.transformProduct p = Ok P
            /\ Server.variants P = []
            /\ Server.price P = num 0
            /\ Server.currency P = VStr "GBP").
Proof.
  split; [reflexivity|]. split; [reflexivity|]. intros H.
  destruct (H ascii_builtins Examples.flat_no_variants eq_refl)
    as (P & HP & _).
  vm_compute in HP. discriminate HP.
Qed.

(** The enhanced normalizer returns on that record, with no variant,
    price 0 and currency "GBP"; it raises in its turn on a record
    without variants whose specifications block has no [chunks]. *)
Example enhanced_zero_variants :
  match Enhanced.transformProduct (B := ascii_builtins)
          Examples.flat_no_variants with
  | Ok P =>
      Enhanced.variants P = []
      /\ Enhanced.price P = num 0
      /\ Enhanced.currency P = VStr "GBP"
  | Throw _ => False
  end
  /\ Enhanced.transformProduct (B := ascii_builtins)
       Examples.no_variants_no_chunks
     = Throw TypeError.
Proof. vm_compute. repeat split; reflexivity. Qed.

(** The record without variants. *)
Lemma C10_witness :
  exists P,
    Server.transformProduct (B := ascii_builtins) Examples.no_variants = Ok P
    /\ Server.variants P = []
    /\ Server.price P = num 0
    /\ Server.currency P = VStr "GBP".
Proof.
  apply (C10_zero_variants (B := ascii_builtins) Examples.no_variants);
    reflexivity.
Defined.









(** [byPriceRange(200, 500)] keeps the heaters at 200.00 and 500.00 and
    drops those at 199.99 and 500.01. *)
Example price_range_200_500 :
  match Server.productsByPriceRange (B := ascii_builtins)
          (VArr Examples.price_catalog) (Q2Qc 200) (Q2Qc 500) with
  | Ok Ps => map Server.id Ps = [VStr "b"; VStr "c"]
  | Throw _ => False
  end.
Proof. vm_compute. reflexivity. Qed.



(** Panel heaters from 200 to 500 and 500 W to 1000 W: the heater at
    200.00 only.  A negative limit drops from the end instead of
    keeping nothing. *)
Example products_panels_200_to_500 :
  match Server.products (B := ascii_builtins) (VArr Examples.price_catalog)
          Omitted (Given Examples.panels_200_to_500),
        Server.products (B := ascii_builtins) (VArr Examples.price_catalog)
          (Given (-1)%Z) Omitted with
  | Ok Ps, Ok Qs =>
      map Server.id Ps = [VStr "b"]
      /\ map Server.id Qs = [VStr "a"; VStr "b"; VStr "c"]
  | _, _ => False
  end.
Proof. vm_compute. split; reflexivity. Qed.

(** [byWattageRange(500, 1000)] on a 600 W and a 1200 W heater keeps the
    first one only. *)
Example wattage_range_500_1000 :
  match Server.productsByWattage (B := ascii_builtins)
          (VArr [ Examples.record "w600" "Panel Heaters" [ Examples.chunk 600 ] [];
                  Examples.record "w1200" "Panel Heaters" [ Examples.chunk 1200 ] [] ])
          500 1000 with
  | Ok Ps => map Server.id Ps = [VStr "w600"]
  | Throw _ => False
  end.
Proof. vm_compute. reflexivity. Qed.

(** The enhanced normalizer on a record in the flat shape: wattage from
    [specifications.basic], text stripped of its tags, the only variant
    the default one by position, currency and stock defaulted. *)
Example enhanced_flat_record :
  match Enhanced.transformProduct (B := ascii_builtins) Examples.flat_record with
  | Ok P =>
      Enhanced.wattage (Enhanced.specifications P) = num 900
      /\ Enhanced.mounting (Enhanced.specifications P) = VStr "Wall mounted"
      /\ Enhanced.plainText (Enhanced.description P) = VStr "Warm and quiet"
      /\ Enhanced.price P = num (44999 # 100)
      /\ Enhanced.currency P = VStr "GBP"
      /\ map Enhanced.variant_isDefault (Enhanced.variants P) = [VBool true]
      /\ map Enhanced.variant_stock (Enhanced.variants P) = [num 10]
      /\ map Enhanced.altText (Enhanced.images P) = [VStr "side"]
  | Throw _ => False
  end.
Proof. vm_compute. repeat split; reflexivity. Qed.

(** The enhanced normalizer on the flagged-second record: the price and
    currency are again those of the first variant, which it marks as a
    default beside the flagged one. *)
Example enhanced_flagged_second :
  match Enhanced.transformProduct (B := ascii_builtins) Examples.flagged_second with
  | Ok P =>
      Enhanced.price P = num 100
      /\ Enhanced.currency P = VStr "GBP"
      /\ map Enhanced.variant_isDefault (Enhanced.variants P)
         = [VBool true; VBool true]
  | Throw _ => False
  end.
Proof. vm_compute. repeat split; reflexivity. Qed.

(* ================================================================== *)
(** * Further properties of the servers *)
(* ================================================================== *)

(** ** Further queries of src/server.js *)

Lemma find_r_pure {X} (f : X -> result bool) (g : X -> bool) xs :
  (forall x, In x xs -> f x = Ok (g x)) -> find_r f xs = Ok (find g xs).
Proof.
  induction xs as [|x xs IH]; intros H; simpl; [reflexivity|].
  rewrite (H x) by (left; reflexivity). cbn [bind].
  destruct (g x); [reflexivity|]. apply IH. intros; apply H; right; assumption.
Qed.

Lemma slice0_length {X} (xs : list X) (e : Z) :
  (0 <= e)%Z -> (List.length (slice0 xs e) <= Z.to_nat e)%nat.
Proof.
  intros He. rewrite slice0_nonneg by assumption.
  rewrite length_firstn. apply Nat.le_min_l.
Qed.




Section MoreQueries.
Context {B : Builtins}.
Import Server.

Lemma well_formed_not_nullish p : well_formed p = true -> nullish p = false.
Proof.
  unfold well_formed. intros H.
  do 4 (apply andb_true_iff in H as [H _]).
  eapply has_not_nullish. exact H.
Qed.

Lemma transformProduct_id p P :
  transformProduct p = Ok P -> get "id" p = Ok (id P).
Proof.
  unfold transformProduct. intros H.
  bind_step H chunks Echunks. bind_step H chunk0 Echunk0.
  bind_step H p_id Eid. bind_step H p_name Ename. bind_step H p_path Epath.
  bind_step H p_cat Ecat. bind_step H d_html Edh. bind_step H d_plain Edp.
  bind_step H w Ew. bind_step H d Ed. bind_step H wt Ewt.
  bind_step H f_html Efh. bind_step H f_plain Efp. bind_step H imgs Eimgs.
  bind_step H raw Eraw. bind_step H vs Evs. bind_step H Vs EVs.
  bind_step H pr Epr. bind_step H cur Ecur.
  injection H as <-. reflexivity.
Qed.

Lemma has_id_truthy i p : has_id i p = true -> truthy p = true.
Proof. destruct p; cbn; intros H; try discriminate H; reflexivity. Qed.

(** X4.  On a well-formed catalog [Query.product] does not raise: it returns
    [null] exactly when no record carries the id, and otherwise the
    normalization of the first record that carries it, whose id is the
    requested one. *)
Theorem product_finds_first_record_with_id (catalog : list value) (i : string) :
  forallb well_formed catalog = true ->
  exists r,
    product (VArr catalog) i = Ok r
    /\ (r = None <-> forall p, In p catalog -> has_id i p = false)
    /\ (forall P, r = Some P ->
          id P = VStr i
          /\ exists before p after,
               catalog = (before ++ p :: after)%list
               /\ transformProduct p = Ok P
               /\ forall q, In q before -> has_id i q = false).
Proof.
  intros Hwf. rewrite forallb_forall in Hwf.
  unfold product. cbn [as_array bind].
  rewrite (find_r_pure _ (has_id i)).
  2:{ intros p Hp. unfold has_id.
      rewrite (get_eq _ _ (well_formed_not_nullish p (Hwf p Hp))).
      reflexivity. }
  cbn [bind]. destruct (find (has_id i) catalog) as [p|] eqn:F.
  - assert (Hin : In p catalog /\ has_id i p = true) by (eapply find_some; eauto).
    destruct Hin as [Hin Hid].
    rewrite (has_id_truthy i p Hid).
    destruct (transformProduct_total p (Hwf p Hin)) as [P HP].
    rewrite HP. cbn [bind]. exists (Some P). split; [reflexivity|]. split.
    + split; [discriminate|]. intros Hnone. rewrite (Hnone p Hin) in Hid.
      discriminate.
    + intros Q E. injection E as <-.
      pose proof (transformProduct_id p P HP) as Eid.
      unfold has_id in Hid.
      rewrite (get_eq _ _ (well_formed_not_nullish p (Hwf p Hin))) in Eid.
      injection Eid as Eid. rewrite Eid in Hid.
      split.
      * destruct (id P); try discriminate Hid. cbn in Hid.
        apply String.eqb_eq in Hid. congruence.
      * clear -F HP. revert F. induction catalog as [|q rest IH]; simpl.
        -- discriminate.
        -- destruct (has_id i q) eqn:Hq.
           ++ intros E. injection E as ->. exists [], p, rest.
              repeat split; auto. intros ? [].
           ++ intros F. destruct (IH F) as (before & p' & after & -> & HP' & Hb).
              exists (q :: before), p', after. repeat split; auto.
              intros x [<-|Hx]; auto.
  - exists None. split; [reflexivity|]. split.
    + split; [|reflexivity]. intros _ p Hp. eapply find_none; eauto.
    + intros P E. discriminate E.
Qed.

End MoreQueries.

Section RangeQueries.
Context {B : Builtins}.
Import Server.







Lemma map_r_length {X Y} (f : X -> result Y) xs ys :
  map_r f xs = Ok ys -> List.length ys = List.length xs.
Proof.
  intros H. apply map_r_Forall2 in H. symmetry. eapply Forall2_length; eauto.
Qed.






(** X10.  [Query.products] never returns more products than the limit. *)
Theorem products_respects_limit
  (productsData : value) (first : arg Z) (filter : arg ProductFilter)
  (Ps : list Product) :
  products productsData first filter = Ok Ps ->
  (0 <= slice_end first)%Z ->
  (List.length Ps <= Z.to_nat (slice_end first))%nat.
Proof.
  unfold products. intros H Hpos.
  bind_step H raws Eraws. bind_step H filtered Ef.
  rewrite (map_r_length _ _ _ H). apply slice0_length, Hpos.
Qed.




End RangeQueries.

Lemma to_uint_nonnil n : Nat.to_uint n <> Decimal.Nil.
Proof.
  pose proof (DecimalNat.Unsigned.to_of (Nat.to_uint n)) as H.
  rewrite DecimalNat.Unsigned.of_to in H. rewrite H.
  apply DecimalFacts.unorm_nonnil.
Qed.

Lemma nat_to_string_inj a b : nat_to_string a = nat_to_string b -> a = b.
Proof.
  unfold nat_to_string. intros H.
  apply DecimalNat.Unsigned.to_uint_inj.
  assert (Ha := NilZero.usu (Nat.to_uint a) (to_uint_nonnil a)).
  assert (Hb := NilZero.usu (Nat.to_uint b) (to_uint_nonnil b)).
  rewrite H in Ha. congruence.
Qed.

Lemma append_inj_l (pre a b : string) : pre ++ a = pre ++ b -> a = b.
Proof. induction pre; simpl; intros H; [assumption|]. injection H as H. auto. Qed.

Section VariantIds.
Context {B : Builtins}.
Import Server.

Lemma transformVariant_id p v i V :
  transformVariant p v i = Ok V ->
  variant_id V
  = ToString (at_path ["id"] p) ++ "-variant-" ++ nat_to_string i.
Proof.
  unfold transformVariant. intros H.
  bind_step H pid Eid. bind_step H v_name En. bind_step H v_sku Es.
  bind_step H v_price Ep. bind_step H pvs Epv. bind_step H pv0 Epv0.
  bind_step H cur Ecur. bind_step H st Est. bind_step H dflt Ed.
  injection H as <-. cbn. unfold at_path. cbn. rewrite Eid. reflexivity.
Qed.

Lemma mapi_from_ids p vs : forall i Vs,
  mapi_from i (transformVariant p) vs = Ok Vs ->
  map variant_id Vs
  = map (fun k => ToString (at_path ["id"] p) ++ "-variant-" ++ nat_to_string k)
      (seq i (List.length vs)).
Proof.
  induction vs as [|v vs IH]; intros i Vs H; simpl in H |- *.
  - injection H as <-. reflexivity.
  - bind_step H V EV. bind_step H Vs' EVs. injection H as <-.
    simpl. rewrite (transformVariant_id _ _ _ _ EV), (IH _ _ EVs). reflexivity.
Qed.

(** X2.  The normalized variants keep the raw variants' number and order,
    are numbered from 0 in their ids, and no two ids of one product
    coincide. *)
Theorem variant_ids_are_positional_and_distinct
  (p : value) (P : Product) (vs : list value) :
  transformProduct p = Ok P ->
  get "variants" p = Ok (VArr vs) ->
  map variant_id (variants P)
  = map (fun k => ToString (id P) ++ "-variant-" ++ nat_to_string k)
      (seq 0 (List.length vs))
  /\ List.length (variants P) = List.length vs
  /\ NoDup (map variant_id (variants P)).
Proof.
  intros HP Hv.
  destruct (transformProduct_inv p P HP)
    as (chunks & chunk0 & w & d & wt & vs' & _ & _ & _ & _ & _ & _
        & Hvs & Hmap & _ & _).
  rewrite Hv in Hvs. injection Hvs as <-.
  pose proof (mapi_from_ids p vs 0%nat _ Hmap) as Hids.
  pose proof (transformProduct_id p P HP) as Hid.
  assert (Eid : at_path ["id"] p = id P).
  { unfold at_path. cbn. rewrite Hid. reflexivity. }
  rewrite Eid in Hids. split; [exact Hids|]. split.
  - rewrite <- (length_map variant_id), Hids, length_map, length_seq.
    reflexivity.
  - rewrite Hids. apply Injective_map_NoDup; [|apply seq_NoDup].
    intros a b E. apply append_inj_l in E. apply append_inj_l in E.
    apply nat_to_string_inj, E.
Qed.

Lemma transformProduct_images p P :
  transformProduct p = Ok P ->
  exists imgs, images P = or_else imgs (VArr []).
Proof.
  unfold transformProduct. intros H.
  bind_step H chunks Echunks. bind_step H chunk0 Echunk0.
  bind_step H p_id Eid. bind_step H p_name Ename. bind_step H p_path Epath.
  bind_step H p_cat Ecat. bind_step H d_html Edh. bind_step H d_plain Edp.
  bind_step H w Ew. bind_step H d Ed. bind_step H wt Ewt.
  bind_step H f_html Efh. bind_step H f_plain Efp. bind_step H imgs Eimgs.
  bind_step H raw Eraw. bind_step H vs Evs. bind_step H Vs EVs.
  bind_step H pr Epr. bind_step H cur Ecur.
  injection H as <-. cbn. eauto.
Qed.

Lemma mapi_from_Forall {X Y} (f : X -> nat -> result Y) (Q : Y -> Prop) xs :
  (forall x i y, f x i = Ok y -> Q y) ->
  forall i ys, mapi_from i f xs = Ok ys -> Forall Q ys.
Proof.
  intros Hf. induction xs as [|x xs IH]; intros i ys H; simpl in H.
  - injection H as <-. constructor.
  - bind_step H y Ey. bind_step H ys' Eys. injection H as <-.
    constructor; eauto.
Qed.

(** X3.  The fields [transformProduct] supplies a default for are never
    [null] or [undefined] in a product it returns. *)
Theorem defaulted_fields_are_never_nullish (p : value) (P : Product) :
  transformProduct p = Ok P ->
  nullish (wattage (specifications P)) = false
  /\ nullish (dimensions (specifications P)) = false
  /\ nullish (weight (specifications P)) = false
  /\ nullish (images P) = false
  /\ nullish (price P) = false
  /\ nullish (currency P) = false
  /\ Forall (fun V => nullish (variant_currency V) = false
                      /\ nullish (variant_isDefault V) = false)
       (variants P).
Proof.
  intros HP.
  destruct (transformProduct_inv p P HP)
    as (chunks & chunk0 & w & d & wt & vs & _ & _ & _ & _ & _ & Hspec
        & Hvs & Hmap & Hprice & Hcur).
  destruct (transformProduct_images p P HP) as [imgs Himgs].
  rewrite Hspec, Himgs. cbn [wattage dimensions weight].
  repeat split; try (apply or_else_not_nullish; reflexivity).
  - unfold first_variant_price in Hprice.
    bind_step Hprice a Ea. bind_step Hprice b Eb. bind_step Hprice c Ec.
    injection Hprice as <-. apply or_else_not_nullish. reflexivity.
  - unfold first_variant_currency in Hcur.
    bind_step Hcur a Ea. bind_step Hcur b Eb. bind_step Hcur c Ec.
    injection Hcur as <-. apply or_else_not_nullish. reflexivity.
  - apply (mapi_from_Forall (transformVariant p) _ vs) with (i := 0%nat);
      [|exact Hmap].
    intros v i V HV. unfold transformVariant in HV.
    bind_step HV pid Eid. bind_step HV v_name En. bind_step HV v_sku Es.
    bind_step HV v_price Ep. bind_step HV pvs Epv. bind_step HV pv0 Epv0.
    bind_step HV cur Ecur. bind_step HV st Est. bind_step HV dflt Ed.
    injection HV as <-. cbn. split; apply or_else_not_nullish; reflexivity.
Qed.

End VariantIds.

Section CategoryIndex.
Context {B : Builtins}.
Import Server.





End CategoryIndex.

(** ** Authentication and error formatting *)

Lemma string_app_assoc (a b c : string) : (a ++ b) ++ c = a ++ b ++ c.
Proof. induction a; simpl; congruence. Qed.

Lemma substring_of_trans a b c :
  substring_of a b -> substring_of b c -> substring_of a c.
Proof.
  intros (p1 & q1 & ->) (p2 & q2 & ->).
  exists (p2 ++ p1), (q1 ++ q2). rewrite !string_app_assoc. reflexivity.
Qed.

Lemma strip_prefix_app pat rest : strip_prefix pat (pat ++ rest) = Some rest.
Proof.
  induction pat as [|c pat IH]; simpl; [destruct rest; reflexivity|].
  rewrite Ascii.eqb_refl. exact IH.
Qed.

Lemma strip_prefix_some pat s rest :
  strip_prefix pat s = Some rest -> s = pat ++ rest.
Proof.
  revert s. induction pat as [|c pat IH]; intros s H.
  - destruct s; simpl in H; injection H as <-; reflexivity.
  - destruct s as [|d s]; simpl in H; [discriminate|].
    destruct (Ascii.eqb c d) eqn:E; [|discriminate].
    apply Ascii.eqb_eq in E. subst d. simpl. f_equal. auto.
Qed.

Lemma replace_first_unfold pat s :
  replace_first pat s =
  match strip_prefix pat s with
  | Some rest => rest
  | None =>
      match s with
      | EmptyString => EmptyString
      | String c rest => String c (replace_first pat rest)
      end
  end.
Proof. destruct s; reflexivity. Qed.

Lemma replace_first_prefix pat rest : replace_first pat (pat ++ rest) = rest.
Proof. rewrite replace_first_unfold, strip_prefix_app. reflexivity. Qed.

(** Without an occurrence of the pattern, [replace] changes nothing. *)
Lemma replace_first_absent pat s :
  includes s pat = false -> replace_first pat s = s.
Proof.
  induction s as [|c s IH]; intros H.
  - simpl. destruct (strip_prefix pat "") as [rest|] eqn:E; [|reflexivity].
    apply strip_prefix_some in E.
    assert (Hin : includes "" pat = true)
      by (apply includes_substring; exists "", rest; exact E).
    congruence.
  - cbn [replace_first].
    destruct (strip_prefix pat (String c s)) as [rest|] eqn:E.
    + apply strip_prefix_some in E.
      assert (Hin : includes (String c s) pat = true)
        by (apply includes_substring; exists "", rest; exact E).
      congruence.
    + f_equal. apply IH.
      destruct (includes s pat) eqn:Hs; [|reflexivity].
      apply includes_substring in Hs as (pre & post & ->).
      assert (Hin : includes (String c (pre ++ pat ++ post)) pat = true)
        by (apply includes_substring; exists (String c pre), post; reflexivity).
      congruence.
Qed.

Section AuthProperties.
Context {J : Auth.JwtLibrary}.
Import Auth.

Lemma non_empty_some o s : non_empty o = Some s -> o = Some s /\ s <> "".
Proof.
  destruct o as [t|]; simpl; [|discriminate].
  destruct (String.eqb t "") eqn:E; [discriminate|].
  intros H; injection H as <-. split; [reflexivity|].
  intros ->. discriminate E.
Qed.

(** X12.  [createAuthContext] never lets a request through on its own word:
    outside the development bypass, a context is returned only for a
    non-empty token that is the configured API key or that
    [jwt.verify] accepts under the configured secret; every context it
    returns is marked authenticated. *)
Theorem createAuthContext_accepts_only_known_tokens
  (env : environment) (header : option string) (ctx : AuthContext) :
  createAuthContext env header = Returns ctx ->
  authenticated ctx = true
  /\ (bypass env = true
      \/ exists h token,
           header = Some h
           /\ token = replace_first "Bearer " h
           /\ token <> ""
           /\ (API_KEY env = Some token
               \/ exists secret,
                    JWT_SECRET env = Some secret
                    /\ secret <> ""
                    /\ jwt_verify token secret = Some (user ctx))).
Proof.
  unfold createAuthContext. fold (bypass env).
  destruct (bypass env) eqn:Bp.
  - intros H. injection H as <-. auto.
  - destruct (non_empty header) as [h|] eqn:Eh; [|discriminate].
    apply non_empty_some in Eh as [-> Hh]. cbn zeta.
    destruct (String.eqb (replace_first "Bearer " h) "") eqn:Et; [discriminate|].
    assert (Ht : replace_first "Bearer " h <> "")
      by (intros E; rewrite E in Et; discriminate Et).
    destruct (non_empty (API_KEY env)) as [key|] eqn:Ek.
    + apply non_empty_some in Ek as [Ek Hk].
      destruct (String.eqb (replace_first "Bearer " h) key) eqn:Em.
      * apply String.eqb_eq in Em. intros H. injection H as <-.
        split; [reflexivity|]. right. exists h, (replace_first "Bearer " h).
        repeat split; auto. left. congruence.
      * destruct (non_empty (JWT_SECRET env)) as [secret|] eqn:Es; [|discriminate].
        apply non_empty_some in Es as [Es Hs].
        destruct (jwt_verify (replace_first "Bearer " h) secret) as [d|] eqn:Ev;
          [|discriminate].
        intros H. injection H as <-. split; [reflexivity|]. right.
        exists h, (replace_first "Bearer " h). repeat split; auto.
        right. exists secret. auto.
    + destruct (non_empty (JWT_SECRET env)) as [secret|] eqn:Es; [|discriminate].
      apply non_empty_some in Es as [Es Hs].
      destruct (jwt_verify (replace_first "Bearer " h) secret) as [d|] eqn:Ev;
        [|discriminate].
      intros H. injection H as <-. split; [reflexivity|]. right.
      exists h, (replace_first "Bearer " h). repeat split; auto.
      right. exists secret. auto.
Qed.

(** X13.  Outside the development bypass the configured API key opens the
    door as a frontend client, sent as "Bearer <key>" and also bare,
    when the key itself does not contain "Bearer ". *)
Theorem createAuthContext_accepts_the_api_key (env : environment) (key : string) :
  API_KEY env = Some key ->
  key <> "" ->
  bypass env = false ->
  let granted := Returns {| authenticated := true;
                            user := VObj [ ("role", VStr "frontend_client");
                                           ("apiKey", VStr key) ] |} in
  createAuthContext env (Some ("Bearer " ++ key)) = granted
  /\ (includes key "Bearer " = false ->
      createAuthContext env (Some key) = granted).
Proof.
  intros Ek Hk Bp. cbn zeta.
  assert (Hne : String.eqb key "" = false)
    by (apply String.eqb_neq; exact Hk).
  assert (Hgen : forall h, h <> "" -> replace_first "Bearer " h = key ->
            createAuthContext env (Some h)
            = Returns {| authenticated := true;
                         user := VObj [ ("role", VStr "frontend_client");
                                        ("apiKey", VStr key) ] |}).
  { intros h Hh Hr. unfold createAuthContext. fold (bypass env). rewrite Bp.
    cbn [non_empty]. apply String.eqb_neq in Hh. rewrite Hh. cbn zeta.
    rewrite Hr, Hne, Ek. cbn [non_empty]. rewrite Hne, String.eqb_refl.
    reflexivity. }
  split.
  - apply Hgen; [discriminate|]. apply replace_first_prefix.
  - intros Habs. apply Hgen; [exact Hk|]. apply replace_first_absent, Habs.
Qed.

(** X14.  In production [formatError] shows one of three fixed messages and
    nothing of the original one; every error [createAuthContext]
    throws, also wrapped in a longer message, is shown as
    "Authentication required", the invalid-token error included. *)
Theorem formatError_hides_messages_in_production
  (env env' : environment) (header : option string) (message : string) :
  production env = true ->
  In (formatError env message)
     ["Authentication required"; "Authentication failed"; "Internal server error"]
  /\ (forall thrown,
        createAuthContext env' header = Throws thrown ->
        substring_of thrown message ->
        formatError env message = "Authentication required").
Proof.
  intros Hp. unfold formatError. fold (production env). rewrite Hp. split.
  - destruct (includes message "Authorization" || includes message "authentication");
      [simpl; auto|].
    destruct (includes message "Invalid"); simpl; auto.
  - intros thrown Hthrow Hsub.
    assert (Hm : substring_of "Authorization" thrown
                 \/ substring_of "authentication" thrown).
    { unfold createAuthContext in Hthrow.
      repeat match type of Hthrow with
             | (if ?c then _ else _) = _ => destruct c
             | match ?c with _ => _ end = _ => destruct c
             end;
        try discriminate Hthrow; injection Hthrow as <-;
        first [ left; apply includes_substring; reflexivity
              | right; apply includes_substring; reflexivity ]. }
    assert (Hinc : includes message "Authorization"
                   || includes message "authentication" = true).
    { apply orb_true_iff. destruct Hm as [Hm|Hm]; [left|right];
        apply includes_substring; eapply substring_of_trans; eauto. }
    rewrite Hinc. reflexivity.
Qed.

End AuthProperties.

(** ** Tag stripping *)

Lemma has_gt_app a b : has_gt (a ++ b) = has_gt a || has_gt b.
Proof.
  induction a as [|c a IH]; simpl; [reflexivity|].
  destruct (Ascii.eqb c ">"); [reflexivity | exact IH].
Qed.

Lemma clean_empty : clean "".
Proof. intros pre post H. destruct pre; discriminate H. Qed.

Lemma clean_cons c t : Ascii.eqb c "<" = false -> clean t -> clean (String c t).
Proof.
  intros Hc Ht pre post H. destruct pre as [|d pre]; simpl in H.
  - injection H as -> _. discriminate Hc.
  - injection H as _ ->. eapply Ht. reflexivity.
Qed.

Lemma clean_tail c t : clean (String c t) -> clean t.
Proof.
  intros H pre post E. apply (H (String c pre) post). rewrite E. reflexivity.
Qed.

Lemma clean_no_gt s : has_gt s = false -> clean s.
Proof.
  intros Hs pre post ->. rewrite !has_gt_app in Hs.
  apply orb_false_iff in Hs as [_ Hs]. apply orb_false_iff in Hs as [_ Hs].
  exact Hs.
Qed.

Lemma strip_from_clean s : forall inside, clean (strip_from inside s).
Proof.
  induction s as [|c s IH]; intros inside; [destruct inside; apply clean_empty|].
  cbn [strip_from]. destruct inside.
  - destruct (Ascii.eqb c ">"); apply IH.
  - destruct (Ascii.eqb c "<") eqn:Ec.
    + destruct (has_gt s) eqn:Hs; [apply IH|].
      apply clean_no_gt. simpl.
      apply Ascii.eqb_eq in Ec. subst c. exact Hs.
    + apply clean_cons; [exact Ec | apply IH].
Qed.

Lemma strip_from_fixed r : clean r -> strip_from false r = r.
Proof.
  induction r as [|c t IH]; intros H; [reflexivity|].
  cbn [strip_from]. destruct (Ascii.eqb c "<") eqn:Ec.
  - apply Ascii.eqb_eq in Ec. subst c.
    rewrite (H "" t eq_refl). reflexivity.
  - f_equal. apply IH. eapply clean_tail; eauto.
Qed.

Lemma strip_from_no_lt s : includes s "<" = false -> strip_from false s = s.
Proof.
  intros H. apply strip_from_fixed. intros pre post E.
  assert (Hin : includes s "<" = true)
    by (apply includes_substring; exists pre, post; exact E).
  congruence.
Qed.

Lemma strip_tags_tag_free s : tag_free (strip_tags s).
Proof.
  intros pre mid post E.
  pose proof (strip_from_clean s false pre (mid ++ ">" ++ post) E) as H.
  rewrite has_gt_app in H. simpl in H. rewrite orb_true_r in H. discriminate H.
Qed.

(** X17.  What the enhanced normalizer derives as plain text holds no tag any
    more; stripping again changes nothing, and text without [<] is left
    as it is. *)
Theorem strip_tags_leaves_no_tag (s : string) :
  tag_free (strip_tags s)
  /\ strip_tags (strip_tags s) = strip_tags s
  /\ (includes s "<" = false -> strip_tags s = s).
Proof.
  split; [apply strip_tags_tag_free|]. unfold strip_tags. split.
  - apply strip_from_fixed, strip_from_clean.
  - apply strip_from_no_lt.
Qed.

Lemma truthy_or_else a b : truthy b = true -> truthy (or_else a b) = true.
Proof. unfold or_else. destruct (truthy a) eqn:T; auto. Qed.

Section EnhancedInvariants.
Context {B : Builtins}.
Import Enhanced.

Lemma enhanced_transformVariant_defaults p v i V :
  transformVariant p v i = Ok V ->
  truthy (variant_currency V) = true
  /\ truthy (variant_stock V) = true
  /\ (i = 0%nat -> truthy (variant_isDefault V) = true).
Proof.
  unfold transformVariant. intros H.
  bind_step H pid Eid. bind_step H v_name En. bind_step H v_sku Es.
  bind_step H v_price Ep. bind_step H pvs Epv. bind_step H cur Ecur.
  bind_step H cur' Ecur'. bind_step H st Est. bind_step H dflt Ed.
  injection H as <-. cbn. repeat split; try (apply truthy_or_else; reflexivity).
  intros ->. apply truthy_or_else. reflexivity.
Qed.

(** What a successful call of the enhanced [transformProduct] built. *)
Lemma enhanced_transformProduct_inv p P :
  transformProduct p = Ok P ->
  exists specs cov eff vs cur w,
    specifications P =
      {| wattage := or_else (at_path ["wattage"] specs) (num 0);
         dimensions := or_else (at_path ["dimensions"] specs) (VStr "Unknown");
         weight := or_else (at_path ["weight"] specs) (num 0);
         coverage := or_else cov VNull;
         mounting := or_else (at_path ["mounting"] specs) (VStr "Wall mounted");
         efficiency := or_else eff (VStr "A+ Energy Rating") |}
    /\ get "variants" p = Ok (VArr vs)
    /\ mapi_from 0 (transformVariant p) vs = Ok (variants P)
    /\ Server.first_variant_price p = Ok (price P)
    /\ currency P = or_else cur (VStr "GBP")
    /\ warranty P = or_else w (VStr "2 year manufacturer warranty").
Proof.
  unfold transformProduct. intros H.
  bind_step H chunk0 E1. bind_step H specs E2. bind_step H desc E3.
  bind_step H feats E4. bind_step H cimgs E5. bind_step H imgval E6.
  bind_step H p_id E7. bind_step H p_name E8. bind_step H p_path E9.
  bind_step H p_cat E10. bind_step H d_html E11. bind_step H d_plain E12.
  bind_step H s_w E13. bind_step H s_d E14. bind_step H s_wt E15.
  bind_step H s_cov E16. bind_step H cov E17. bind_step H s_m E18.
  bind_step H s_eff E19. bind_step H eff E20. bind_step H f_html E21.
  bind_step H f_plain E22. bind_step H image_list E23. bind_step H imgs E24.
  bind_step H raw E25. bind_step H vs E26. bind_step H Vs E27.
  bind_step H pr E28. bind_step H v0 E29. bind_step H cur E30.
  bind_step H cur' E31. bind_step H src E32. bind_step H ext E33.
  bind_step H w E34. bind_step H w' E35.
  injection H as <-. cbn.
  destruct raw; try discriminate E26. cbn in E26. injection E26 as ->.
  exists specs, cov, eff, vs, cur', w'.
  assert (field : forall k v, get k specs = Ok v -> v = at_path [k] specs).
  { intros k v E. unfold at_path. cbn. rewrite E. reflexivity. }
  rewrite (field _ _ E13), (field _ _ E14), (field _ _ E15), (field _ _ E18).
  repeat split; auto.
Qed.

(** X18.  The enhanced normalizer leaves no product without a default
    variant, and no defaulted field of a product or variant is falsy:
    the first variant is flagged as default, every variant has a stock
    and a currency, and the product has a currency, a mounting, an
    efficiency and a warranty. *)
Theorem enhanced_defaults_are_always_set (p : value) (P : Product) :
  transformProduct p = Ok P ->
  (forall V0 rest, variants P = V0 :: rest ->
                   truthy (variant_isDefault V0) = true)
  /\ Forall (fun V => truthy (variant_stock V) = true
                      /\ truthy (variant_currency V) = true) (variants P)
  /\ truthy (currency P) = true
  /\ truthy (mounting (specifications P)) = true
  /\ truthy (dimensions (specifications P)) = true
  /\ truthy (efficiency (specifications P)) = true
  /\ truthy (warranty P) = true.
Proof.
  intros HP.
  destruct (enhanced_transformProduct_inv p P HP)
    as (specs & cov & eff & vs & cur & w & Hspec & Hvs & Hmap & Hprice
        & Hcur & Hw).
  rewrite Hspec, Hcur, Hw. cbn [mounting dimensions efficiency].
  repeat split; try (apply truthy_or_else; reflexivity).
  - intros V0 rest E. rewrite E in Hmap.
    destruct vs as [|v vs']; simpl in Hmap; [discriminate|].
    bind_step Hmap V EV. bind_step Hmap Vs EVs. injection Hmap as -> _.
    apply (enhanced_transformVariant_defaults _ _ _ _ EV). reflexivity.
  - apply (mapi_from_Forall (transformVariant p) _ vs) with (i := 0%nat);
      [|exact Hmap].
    intros v i V HV.
    destruct (enhanced_transformVariant_defaults _ _ _ _ HV) as (Hc & Hs & _).
    auto.
Qed.

End EnhancedInvariants.

(** ** The enhanced loader's order of sources *)



Section EnhancedText.
Context {B : Builtins}.
Import Enhanced.

Lemma enhanced_description_inv p P :
  transformProduct p = Ok P ->
  nullish p = false
  /\ exists desc,
       content_or_information "description"
         "<p>High-quality infrared heater.</p>" "High-quality infrared heater." p
       = Ok desc
       /\ description P = {| html := at_path ["html"] desc;
                             plainText := at_path ["plainText"] desc |}.
Proof.
  unfold transformProduct. intros H.
  bind_step H chunk0 E1. bind_step H specs E2. bind_step H desc E3.
  bind_step H feats E4. bind_step H cimgs E5. bind_step H imgval E6.
  bind_step H p_id E7. bind_step H p_name E8. bind_step H p_path E9.
  bind_step H p_cat E10. bind_step H d_html E11. bind_step H d_plain E12.
  bind_step H s_w E13. bind_step H s_d E14. bind_step H s_wt E15.
  bind_step H s_cov E16. bind_step H cov E17. bind_step H s_m E18.
  bind_step H s_eff E19. bind_step H eff E20. bind_step H f_html E21.
  bind_step H f_plain E22. bind_step H image_list E23. bind_step H imgs E24.
  bind_step H raw E25. bind_step H vs E26. bind_step H Vs E27.
  bind_step H pr E28. bind_step H v0 E29. bind_step H cur E30.
  bind_step H cur' E31. bind_step H src E32. bind_step H ext E33.
  bind_step H w E34. bind_step H w' E35.
  injection H as <-. cbn. split.
  - destruct p; try discriminate E7; reflexivity.
  - exists desc. split; [reflexivity|].
    unfold at_path. cbn. rewrite E11, E12. reflexivity.
Qed.

(** X19.  For a record that has its description under [information] only,
    the normalized html is that text and the plain text is the same
    text with its tags stripped; a text that is empty, or nothing but
    tags, gives way to the default sentence. *)
Theorem enhanced_plain_text_is_stripped_html
  (p : value) (P : Product) (h : string) :
  transformProduct p = Ok P ->
  truthy (at_path ["components"; "description"; "content"] p) = false ->
  at_path ["information"; "description"] p = VStr h ->
  html (description P)
  = (if String.eqb h "" then VStr "<p>High-quality infrared heater.</p>"
     else VStr h)
  /\ plainText (description P)
     = (if String.eqb (strip_tags h) "" then VStr "High-quality infrared heater."
        else VStr (strip_tags h))
  /\ exists t, plainText (description P) = VStr t /\ tag_free t.
Proof.
  intros HP Hc Hi.
  destruct (enhanced_description_inv p P HP) as (N & desc & Hd & ->).
  unfold content_or_information in Hd.
  rewrite (component_get _ _ _ N) in Hd. cbn [bind] in Hd.
  unfold or_else_r in Hd. rewrite Hc in Hd.
  rewrite (top_level_eq _ _ _ N), Hi in Hd. cbn in Hd.
  injection Hd as <-. cbn.
  assert (Hplain : (if negb (String.eqb (strip_tags h) "")
                    then VStr (strip_tags h)
                    else VStr "High-quality infrared heater.")
                   = (if String.eqb (strip_tags h) ""
                      then VStr "High-quality infrared heater."
                      else VStr (strip_tags h)))
    by (destruct (String.eqb (strip_tags h) ""); reflexivity).
  unfold or_else, truthy.
  split; [destruct (String.eqb h ""); reflexivity|].
  rewrite Hplain. split; [reflexivity|].
  destruct (String.eqb (strip_tags h) "").
  - exists "High-quality infrared heater.". split; [reflexivity|].
    intros pre mid post E.
    assert (Hin : includes "High-quality infrared heater." "<" = true).
    { apply includes_substring. exists pre, (mid ++ ">" ++ post). exact E. }
    discriminate Hin.
  - exists (strip_tags h). split; [reflexivity|].
    apply strip_tags_tag_free.
Qed.

End EnhancedText.

(* ================================================================== *)
(** * The further properties at concrete inputs *)
(* ================================================================== *)

(** The flagged-second record has the variant ids h1-variant-0 and
    h1-variant-1. *)
Lemma variant_ids_witness :
  match Server.transformProduct (B := ascii_builtins) Examples.flagged_second with
  | Ok P =>
      map Server.variant_id (Server.variants P)
      = ["h1-variant-0"; "h1-variant-1"]
      /\ NoDup (map Server.variant_id (Server.variants P))
  | Throw _ => False
  end.
Proof.
  destruct (Server.transformProduct (B := ascii_builtins) Examples.flagged_second)
    as [P|e] eqn:E.
  - destruct (variant_ids_are_positional_and_distinct (B := ascii_builtins)
                Examples.flagged_second P
                [Examples.variant "white" 100 "GBP" false;
                 Examples.variant "black" 200 "EUR" true] E eq_refl)
      as (Hids & _ & Hnd).
    split; [|exact Hnd]. rewrite Hids.
    vm_compute in E. injection E as <-. reflexivity.
  - vm_compute in E. discriminate E.
Defined.

(** The record without chunks: its defaulted fields are set. *)
Lemma defaulted_fields_witness :
  match Server.transformProduct (B := ascii_builtins) Examples.no_chunks with
  | Ok P =>
      nullish (Server.wattage (Server.specifications P)) = false
      /\ nullish (Server.currency P) = false
  | Throw _ => False
  end.
Proof.
  destruct (Server.transformProduct (B := ascii_builtins) Examples.no_chunks)
    as [P|e] eqn:E.
  - destruct (defaulted_fields_are_never_nullish (B := ascii_builtins)
                Examples.no_chunks P E) as (Hw & _ & _ & _ & _ & Hc & _).
    split; assumption.
  - vm_compute in E. discriminate E.
Defined.

(** Looking up heater "c" and the unknown id "z" among the four
    heaters. *)
Lemma product_lookup_witness :
  (exists r, Server.product (B := ascii_builtins)
               (VArr Examples.price_catalog) "c" = Ok r
             /\ forall P, r = Some P -> Server.id P = VStr "c")
  /\ Server.product (B := ascii_builtins) (VArr Examples.price_catalog) "z"
     = Ok None.
Proof.
  split.
  - destruct (product_finds_first_record_with_id (B := ascii_builtins)
                Examples.price_catalog "c" eq_refl) as (r & Hr & _ & Hsome).
    exists r. split; [exact Hr|]. intros P HP. apply (Hsome P HP).
  - destruct (product_finds_first_record_with_id (B := ascii_builtins)
                Examples.price_catalog "z" eq_refl) as (r & Hr & Hnone & _).
    rewrite Hr. f_equal. apply Hnone.
    intros p Hp. simpl in Hp.
    repeat (destruct Hp as [<-|Hp]; [reflexivity|]). contradiction.
Defined.






(** Two of the four heaters are asked for; no more than two come. *)
Lemma products_limit_witness :
  match Server.products (B := ascii_builtins) (VArr Examples.price_catalog)
          (Given 2%Z) Omitted with
  | Ok Ps => (List.length Ps <= 2)%nat
  | Throw _ => False
  end.
Proof.
  destruct (Server.products (B := ascii_builtins) (VArr Examples.price_catalog)
              (Given 2%Z) Omitted) as [Ps|e] eqn:E.
  - apply (products_respects_limit (B := ascii_builtins)
             (VArr Examples.price_catalog) (Given 2%Z) Omitted Ps E).
    discriminate.
  - vm_compute in E. discriminate E.
Defined.


(** A request with the API key, under a verifier that knows one token. *)
Lemma createAuthContext_sound_witness :
  match Auth.createAuthContext
          (J := single_token_jwt "t-1" "s3cret" (VObj [ ("role", VStr "admin") ]))
          Examples.production_env (Some "Bearer t-1") with
  | Auth.Returns ctx =>
      Auth.authenticated ctx = true
      /\ Auth.user ctx = VObj [ ("role", VStr "admin") ]
  | Auth.Throws _ => False
  end.
Proof.
  destruct (Auth.createAuthContext
              (J := single_token_jwt "t-1" "s3cret" (VObj [ ("role", VStr "admin") ]))
              Examples.production_env (Some "Bearer t-1")) as [ctx|m] eqn:E.
  - destruct (createAuthContext_accepts_only_known_tokens
                (J := single_token_jwt "t-1" "s3cret"
                        (VObj [ ("role", VStr "admin") ]))
                Examples.production_env (Some "Bearer t-1") ctx E) as [Ha _].
    split; [exact Ha|]. vm_compute in E. injection E as <-. reflexivity.
  - vm_compute in E. discriminate E.
Defined.

(** The API key of the production environment, with the prefix and
    bare. *)
Lemma createAuthContext_api_key_witness :
  Auth.createAuthContext
    (J := single_token_jwt "t-1" "s3cret" VNull)
    Examples.production_env (Some "Bearer k-123")
  = Auth.createAuthContext
      (J := single_token_jwt "t-1" "s3cret" VNull)
      Examples.production_env (Some "k-123").
Proof.
  destruct (createAuthContext_accepts_the_api_key
              (J := single_token_jwt "t-1" "s3cret" VNull)
              Examples.production_env "k-123" eq_refl) as [H1 H2].
  - discriminate.
  - reflexivity.
  - etransitivity; [exact H1 | symmetry; apply H2; reflexivity].
Defined.

(** A wrapped missing-header error, formatted in production. *)
Lemma formatError_witness :
  Auth.formatError Examples.production_env
    "Context creation failed: Authorization header required for secure access"
  = "Authentication required".
Proof.
  destruct (formatError_hides_messages_in_production
              (J := single_token_jwt "t-1" "s3cret" VNull)
              Examples.production_env Examples.production_env None
              "Context creation failed: Authorization header required for secure access"
              eq_refl) as [_ H].
  apply (H "Authorization header required for secure access").
  - reflexivity.
  - exists "Context creation failed: ", "". reflexivity.
Defined.


(** A text without tags is left as it is. *)
Lemma strip_tags_witness : strip_tags "Warm and quiet" = "Warm and quiet".
Proof.
  destruct (strip_tags_leaves_no_tag "Warm and quiet") as (_ & _ & H).
  apply H. reflexivity.
Defined.

(** The flat record: its only variant is the default one and has a
    stock. *)
Lemma enhanced_defaults_witness :
  match Enhanced.transformProduct (B := ascii_builtins) Examples.flat_record with
  | Ok P =>
      Forall (fun V => truthy (Enhanced.variant_stock V) = true
                       /\ truthy (Enhanced.variant_currency V) = true)
        (Enhanced.variants P)
      /\ truthy (Enhanced.warranty P) = true
  | Throw _ => False
  end.
Proof.
  destruct (Enhanced.transformProduct (B := ascii_builtins) Examples.flat_record)
    as [P|e] eqn:E.
  - destruct (enhanced_defaults_are_always_set (B := ascii_builtins)
                Examples.flat_record P E) as (_ & Hv & _ & _ & _ & _ & Hw).
    split; assumption.
  - vm_compute in E. discriminate E.
Defined.

(** The flat record: its plain text is its description without tags. *)
Lemma enhanced_plain_text_witness :
  match Enhanced.transformProduct (B := ascii_builtins) Examples.flat_record with
  | Ok P =>
      Enhanced.plainText (Enhanced.description P) = VStr "Warm and quiet"
  | Throw _ => False
  end.
Proof.
  destruct (Enhanced.transformProduct (B := ascii_builtins) Examples.flat_record)
    as [P|e] eqn:E.
  - destruct (enhanced_plain_text_is_stripped_html (B := ascii_builtins)
                Examples.flat_record P "<p>Warm <b>and</b> quiet</p>" E
                eq_refl eq_refl) as (_ & H & _).
    rewrite H. reflexivity.
  - vm_compute in E. discriminate E.
Defined.
